(** * Tenant-scoped GraphQL schema of the project tracker

    Shallow embedding of [backend/core/schema.py]: the resolvers of
    [Query], the derived fields of [ProjectType] and the mutations
    [CreateProject] and [UpdateTask], over an explicit model of the four
    Django tables. *)

From Stdlib Require Import ZArith QArith Qpower Qreduction Qabs DecimalString.
From Stdlib Require Import Lia Lqa.
From Stdlib Require Qcanon.
From stdpp Require Import base option list gmap strings.

Local Open Scope Z_scope.

(** ** Python values *)

(** A [graphene.ID] argument reaches the resolver as a [str]. *)
Definition ID := string.

(** [graphene.Date] and [graphene.DateTime] values are only stored and
    copied by this module; they are kept as their ISO text. *)
Definition date := string.
Definition datetime := string.

(** Truthiness of an optional string argument, as tested by
    [if projectId:]: [None] and the empty string are false. *)
Definition truthy (v : option string) : bool :=
  match v with
  | None => false
  | Some s => negb (String.eqb s EmptyString)
  end.

(** ** Exceptions *)

Inductive model := MOrganization | MProject | MTask | MTaskComment.

Inductive exn :=
  | DoesNotExist (m : model)
  | MultipleObjectsReturned (m : model)
  | ValueError
  | ZeroDivisionError
  | Exception (msg : string).

Inductive result (A : Type) :=
  | Return (a : A)
  | Raise (e : exn).
Arguments Return {A} a.
Arguments Raise {A} e.

#[export] Instance result_ret : MRet result := λ A a, Return a.
#[export] Instance result_bind : MBind result := λ A B k r,
  match r with
  | Return a => k a
  | Raise e => Raise e
  end.

(** [try: body except cls: handler] for a handler that does not use the
    exception value. *)
Definition try_except {A} (body : result A) (cls : exn → bool)
    (handler : result A) : result A :=
  match body with
  | Return a => Return a
  | Raise e => if cls e then handler else Raise e
  end.

Definition is_DoesNotExist (m : model) (e : exn) : bool :=
  match e, m with
  | DoesNotExist MOrganization, MOrganization => true
  | DoesNotExist MProject, MProject => true
  | DoesNotExist MTask, MTask => true
  | DoesNotExist MTaskComment, MTaskComment => true
  | _, _ => false
  end.

(** ** The tables

    The columns are those the constructors in [schema.py] name
    ([Organization(name=, slug=, contact_email=)] and so on); a foreign key
    is the primary key of the row it points to.  A table maps primary keys
    to rows, so a primary key names at most one row. *)

Record Organization := {
  name : string;
  slug : string;
  contact_email : string
}.

Record Project := {
  organization_id : Z;
  project_name : string;
  project_description : string;
  project_status : string;
  project_due_date : option date
}.

Record Task := {
  project_id : Z;
  title : string;
  description : string;
  status : string;
  assignee_email : string;
  due_date : option datetime
}.

Record TaskComment := {
  task_id : Z;
  content : string;
  author_email : string
}.

Record DB := {
  organizations : gmap Z Organization;
  projects : gmap Z Project;
  tasks : gmap Z Task;
  comments : gmap Z TaskComment
}.

(** Assignment to one attribute of a task instance. *)
Definition set_title (t : Task) (v : string) : Task :=
  {| project_id := project_id t; title := v; description := description t;
     status := status t; assignee_email := assignee_email t;
     due_date := due_date t |}.

Definition set_description (t : Task) (v : string) : Task :=
  {| project_id := project_id t; title := title t; description := v;
     status := status t; assignee_email := assignee_email t;
     due_date := due_date t |}.

Definition set_status (t : Task) (v : string) : Task :=
  {| project_id := project_id t; title := title t;
     description := description t; status := v;
     assignee_email := assignee_email t; due_date := due_date t |}.

Definition set_assignee_email (t : Task) (v : string) : Task :=
  {| project_id := project_id t; title := title t;
     description := description t; status := status t;
     assignee_email := v; due_date := due_date t |}.

Definition set_due_date (t : Task) (v : datetime) : Task :=
  {| project_id := project_id t; title := title t;
     description := description t; status := status t;
     assignee_email := assignee_email t; due_date := Some v |}.

(** Assignment to one attribute of a project instance. *)
Definition set_project_name (p : Project) (v : string) : Project :=
  {| organization_id := organization_id p; project_name := v;
     project_description := project_description p;
     project_status := project_status p;
     project_due_date := project_due_date p |}.

Definition set_project_description (p : Project) (v : string) : Project :=
  {| organization_id := organization_id p; project_name := project_name p;
     project_description := v; project_status := project_status p;
     project_due_date := project_due_date p |}.

Definition set_project_status (p : Project) (v : string) : Project :=
  {| organization_id := organization_id p; project_name := project_name p;
     project_description := project_description p; project_status := v;
     project_due_date := project_due_date p |}.

Definition set_project_due_date (p : Project) (v : date) : Project :=
  {| organization_id := organization_id p; project_name := project_name p;
     project_description := project_description p;
     project_status := project_status p; project_due_date := Some v |}.

(** A model instance is a row together with its primary key. *)
Definition pk {A} (inst : Z * A) : Z := inst.1.

(** [Model.objects]: every instance of a table.  No ordering is asked for
    in [schema.py]; the order of the enumeration is that of the table, and
    [prefetch_related] and [select_related] do not change the rows. *)
Definition objects {A} (table : gmap Z A) : list (Z * A) := map_to_list table.

(** [QuerySet.get]: exactly one match, or an exception. *)
Definition get {A} (m : model) (qs : list A) : result A :=
  match qs with
  | [] => Raise (DoesNotExist m)
  | [x] => Return x
  | _ => Raise (MultipleObjectsReturned m)
  end.

(** [Model.save] of a new instance: the row is stored under a fresh key. *)
Definition fresh_pk {A} (table : gmap Z A) : Z :=
  1 + foldr Z.max 0 (objects table).*1.

(** Lookups that span relations: [organization__slug] on a project and
    [project__organization__slug] on a task follow the foreign keys with
    inner joins. *)
Definition organization__slug (db : DB) (p : Project) : option string :=
  slug <$> organizations db !! organization_id p.

Definition project__organization__slug (db : DB) (t : Task) : option string :=
  projects db !! project_id t ≫= organization__slug db.

(** [self.tasks] on a project: the reverse side of the task's foreign
    key. *)
Definition related_tasks (db : DB) (self : Z * Project) : list (Z * Task) :=
  filter (λ t, project_id t.2 = pk self) (objects (tasks db)).

(** ** Python floats

    A finite [float] is an IEEE 754 binary64 number; it is represented by
    its exact value, a rational in lowest terms.  Every operation computes
    the exact result and rounds it to the nearest binary64 number, ties to
    even.  The values computed by this module lie between 0 and 100, so
    infinities and NaN do not arise. *)
Definition float := Q.

(** Nearest integer to [n / d] for [0 < d], ties to even. *)
Definition round_half_even (n d : Z) : Z :=
  let q := n / d in
  let r := n mod d in
  if 2 * r <? d then q
  else if d <? 2 * r then q + 1
  else if Z.even q then q else q + 1.

(** [floor (log2 (a / b))] for positive [a] and [b]. *)
Definition ilog2 (a b : Z) : Z :=
  let e := Z.log2 a - Z.log2 b in
  if a * 2 ^ Z.max 0 (- e) <? b * 2 ^ Z.max 0 e then e - 1 else e.

(** Rounding of the positive rational [a / b] to binary64: 53 significant
    bits, and a least exponent of [-1074] for the subnormal numbers. *)
Definition RN_pos (a b : Z) : Q :=
  let f := Z.max (ilog2 a b - 52) (-1074) in
  let m := round_half_even (a * 2 ^ Z.max 0 (- f)) (b * 2 ^ Z.max 0 f) in
  Qred (inject_Z m * Qpower 2 f).

Definition RN (x : Q) : float :=
  let x := Qred x in
  match Qnum x with
  | Z0 => 0%Q
  | Zpos a => RN_pos (Zpos a) (Zpos (Qden x))
  | Zneg a => Qred (- RN_pos (Zpos a) (Zpos (Qden x)))
  end.

(** [a / b] on [int]s: the correctly rounded quotient, or
    [ZeroDivisionError]. *)
Definition truediv (a b : Z) : result float :=
  if b =? 0 then Raise ZeroDivisionError
  else Return (RN (inject_Z a / inject_Z b)).

(** [x * n] for a float [x] and an [int] [n] that converts exactly. *)
Definition fmul (x : float) (n : Z) : float := RN (x * inject_Z n).

(** [round(x, ndigits)]: the decimal with [ndigits] places nearest to the
    exact value of [x], ties to even, converted back to the nearest
    float. *)
Definition round (x : float) (ndigits : Z) : float :=
  let s := Qred (x * Qpower 10 ndigits) in
  let n := round_half_even (Qnum s) (Zpos (Qden s)) in
  RN (inject_Z n / Qpower 10 ndigits).

(** [QuerySet.count] and [len]. *)
Definition count {A} (qs : list A) : Z := Z.of_nat (length qs).

(** [sum] of a sequence of [int]s. *)
Definition sum (l : list Z) : Z := foldl Z.add 0 l.

(** ** [ProjectType]: derived fields *)

Definition resolve_taskCount (db : DB) (self : Z * Project) : Z :=
  count (related_tasks db self).

Definition resolve_completedTasks (db : DB) (self : Z * Project) : Z :=
  count (filter (λ t, status t.2 = "DONE") (related_tasks db self)).

Definition resolve_completionRate (db : DB) (self : Z * Project)
    : result float :=
  let total := count (related_tasks db self) in
  if total =? 0 then Return 0%Q
  else
    let completed :=
      count (filter (λ t, status t.2 = "DONE") (related_tasks db self)) in
    q ← truediv completed total;
    Return (round (fmul q 100) 2).

Record ProjectStatisticsType := {
  totalProjects : Z;
  totalTasks : Z;
  completedTasks : Z;
  activeTasks : Z;
  completionRate : float
}.

Section Schema.

(** The conversion of a lookup value to the type of the primary keys,
    which are declared in [models.py]: [None] stands for the [ValueError]
    raised for a value that is no key. *)
Variable get_prep_value : ID → option Z.

Definition prep (v : ID) : result Z :=
  match get_prep_value v with
  | Some n => Return n
  | None => Raise ValueError
  end.

(** The project that an optional [projectId] argument narrows the scope
    to: none when the argument is absent or empty; a [ValueError] when it
    is no key. *)
Definition selected (projectId : option ID) : result (option Z) :=
  match projectId with
  | Some p =>
      if truthy projectId then n ← prep p; Return (Some n)
      else Return None
  | None => Return None
  end.

(** ** [Query] *)

Definition resolve_organization (db : DB) (slug0 : string)
    : result (Z * Organization) :=
  try_except
    (get MOrganization
       (filter (λ o, slug o.2 = slug0) (objects (organizations db))))
    (is_DoesNotExist MOrganization)
    (Raise (Exception "Organization not found")).

Definition resolve_projects (db : DB) (organizationSlug : string)
    : list (Z * Project) :=
  filter (λ p, organization__slug db p.2 = Some organizationSlug)
    (objects (projects db)).

Definition resolve_tasks (db : DB) (organizationSlug : string)
    (projectId : option ID) : result (list (Z * Task)) :=
  let queryset :=
    filter (λ t, project__organization__slug db t.2 = Some organizationSlug)
      (objects (tasks db)) in
  match projectId with
  | Some p =>
      if truthy projectId then
        n ← prep p;
        Return (filter (λ t, project_id t.2 = n) queryset)
      else Return queryset
  | None => Return queryset
  end.

Definition resolve_taskComments (db : DB) (taskId : ID)
    (organizationSlug : string) : result (list (Z * TaskComment)) :=
  try_except
    (n ← prep taskId;
     task ← get MTask
       (filter (λ t, pk t = n ∧
                     project__organization__slug db t.2 = Some organizationSlug)
          (objects (tasks db)));
     Return (filter (λ c, task_id c.2 = pk task) (objects (comments db))))
    (is_DoesNotExist MTask)
    (Return []).

Definition resolve_projectStatistics (db : DB) (organizationSlug : string)
    (projectId : option ID) : result (option ProjectStatisticsType) :=
  try_except
    (organization ← get MOrganization
       (filter (λ o, slug o.2 = organizationSlug)
          (objects (organizations db)));
     let projects0 :=
       filter (λ p, organization_id p.2 = pk organization)
         (objects (projects db)) in
     projects1 ←
       match projectId with
       | Some p =>
           if truthy projectId then
             n ← prep p;
             Return (filter (λ p, pk p = n) projects0)
           else Return projects0
       | None => Return projects0
       end;
     let total_projects := count projects1 in
     let all_tasks :=
       foldl (λ acc project, acc ++ related_tasks db project) [] projects1 in
     let total_tasks := count all_tasks in
     let completed_tasks :=
       sum ((λ _, 1) <$> filter (λ t, status t.2 = "DONE") all_tasks) in
     let active_tasks :=
       sum ((λ _, 1) <$> filter (λ t, status t.2 = "IN_PROGRESS") all_tasks) in
     completion_rate ←
       (if 0 <? total_tasks then
          q ← truediv completed_tasks total_tasks;
          Return (round (fmul q 100) 2)
        else Return 0%Q);
     Return (Some {| totalProjects := total_projects;
                     totalTasks := total_tasks;
                     completedTasks := completed_tasks;
                     activeTasks := active_tasks;
                     completionRate := completion_rate |}))
    (is_DoesNotExist MOrganization)
    (Return None).

(** ** Mutations

    A mutation returns the tables as it leaves them together with its
    result.  [save] writes one row; constraints of the storage layer are
    outside this module. *)

Definition CreateProject_mutate (db : DB) (organizationSlug name0 : string)
    (description0 status0 : string) (dueDate : option date)
    : DB * result (Z * Project) :=
  match get MOrganization
          (filter (λ o, slug o.2 = organizationSlug)
             (objects (organizations db))) with
  | Return organization =>
      let project := {| organization_id := pk organization;
                        project_name := name0;
                        project_description := description0;
                        project_status := status0;
                        project_due_date := dueDate |} in
      let id := fresh_pk (projects db) in
      ({| organizations := organizations db;
          projects := <[id := project]> (projects db);
          tasks := tasks db;
          comments := comments db |},
       Return (id, project))
  | Raise e =>
      (db, if is_DoesNotExist MOrganization e
           then Raise (Exception "Organization not found")
           else Raise e)
  end.

(** The defaults of the optional arguments of [CreateProject.mutate]. *)
Definition CreateProject_default_description : string := EmptyString.
Definition CreateProject_default_status : string := "ACTIVE".

Definition UpdateTask_mutate (db : DB) (id : ID) (organizationSlug : string)
    (title0 description0 status0 assigneeEmail : option string)
    (dueDate : option datetime) : DB * result (Z * Task) :=
  match
    n ← prep id;
    get MTask
      (filter (λ t, pk t = n ∧
                    project__organization__slug db t.2 = Some organizationSlug)
         (objects (tasks db)))
  with
  | Return task =>
      let task1 :=
        match title0 with
        | Some v => set_title task.2 v
        | None => task.2
        end in
      let task2 :=
        match description0 with
        | Some v => set_description task1 v
        | None => task1
        end in
      let task3 :=
        match status0 with
        | Some v => set_status task2 v
        | None => task2
        end in
      let task4 :=
        match assigneeEmail with
        | Some v => set_assignee_email task3 v
        | None => task3
        end in
      let task5 :=
        match dueDate with
        | Some v => set_due_date task4 v
        | None => task4
        end in
      ({| organizations := organizations db;
          projects := projects db;
          tasks := <[pk task := task5]> (tasks db);
          comments := comments db |},
       Return (pk task, task5))
  | Raise e =>
      (db, if is_DoesNotExist MTask e
           then Raise (Exception
                  "Task not found or does not belong to organization")
           else Raise e)
  end.

(** [CreateOrganization.mutate]: no lookup comes before the [save]. *)
Definition CreateOrganization_mutate (db : DB)
    (name0 slug0 contactEmail : string) : DB * result (Z * Organization) :=
  let organization :=
    {| name := name0; slug := slug0; contact_email := contactEmail |} in
  let id := fresh_pk (organizations db) in
  ({| organizations := <[id := organization]> (organizations db);
      projects := projects db;
      tasks := tasks db;
      comments := comments db |},
   Return (id, organization)).

Definition CreateTask_mutate (db : DB) (projectId : ID)
    (organizationSlug title0 : string)
    (description0 status0 assigneeEmail : string) (dueDate : option datetime)
    : DB * result (Z * Task) :=
  match
    n ← prep projectId;
    get MProject
      (filter (λ p, pk p = n ∧ organization__slug db p.2 = Some organizationSlug)
         (objects (projects db)))
  with
  | Return project =>
      let task := {| project_id := pk project;
                     title := title0;
                     description := description0;
                     status := status0;
                     assignee_email := assigneeEmail;
                     due_date := dueDate |} in
      let id := fresh_pk (tasks db) in
      ({| organizations := organizations db;
          projects := projects db;
          tasks := <[id := task]> (tasks db);
          comments := comments db |},
       Return (id, task))
  | Raise e =>
      (db, if is_DoesNotExist MProject e
           then Raise (Exception
                  "Project not found or does not belong to organization")
           else Raise e)
  end.

(** The defaults of the optional arguments of [CreateTask.mutate]. *)
Definition CreateTask_default_description : string := EmptyString.
Definition CreateTask_default_status : string := "TODO".
Definition CreateTask_default_assigneeEmail : string := EmptyString.

Definition UpdateProject_mutate (db : DB) (id : ID) (organizationSlug : string)
    (name0 description0 status0 : option string) (dueDate : option date)
    : DB * result (Z * Project) :=
  match
    n ← prep id;
    get MProject
      (filter (λ p, pk p = n ∧ organization__slug db p.2 = Some organizationSlug)
         (objects (projects db)))
  with
  | Return project =>
      let project1 :=
        match name0 with
        | Some v => set_project_name project.2 v
        | None => project.2
        end in
      let project2 :=
        match description0 with
        | Some v => set_project_description project1 v
        | None => project1
        end in
      let project3 :=
        match status0 with
        | Some v => set_project_status project2 v
        | None => project2
        end in
      let project4 :=
        match dueDate with
        | Some v => set_project_due_date project3 v
        | None => project3
        end in
      ({| organizations := organizations db;
          projects := <[pk project := project4]> (projects db);
          tasks := tasks db;
          comments := comments db |},
       Return (pk project, project4))
  | Raise e =>
      (db, if is_DoesNotExist MProject e
           then Raise (Exception
                  "Project not found or does not belong to organization")
           else Raise e)
  end.

Definition CreateTaskComment_mutate (db : DB) (taskId : ID)
    (organizationSlug content0 authorEmail : string)
    : DB * result (Z * TaskComment) :=
  match
    n ← prep taskId;
    get MTask
      (filter (λ t, pk t = n ∧
                    project__organization__slug db t.2 = Some organizationSlug)
         (objects (tasks db)))
  with
  | Return task =>
      let comment := {| task_id := pk task;
                        content := content0;
                        author_email := authorEmail |} in
      let id := fresh_pk (comments db) in
      ({| organizations := organizations db;
          projects := projects db;
          tasks := tasks db;
          comments := <[id := comment]> (comments db) |},
       Return (id, comment))
  | Raise e =>
      (db, if is_DoesNotExist MTask e
           then Raise (Exception
                  "Task not found or does not belong to organization")
           else Raise e)
  end.

End Schema.

(** ** Task sets and invariants of the data *)

(** Modelled from the spec: the uniqueness of an organization's slug is
    declared in [models.py], which is not in the source tree; the data
    model names the slug as the unique identity of an organization. *)
Definition slug_unique (db : DB) : Prop :=
  NoDup ((λ o, slug o.2) <$> objects (organizations db)).

(** The completion rate of a task set in the words of the specification,
    in exact arithmetic: the number of tasks with status DONE divided by
    the number of tasks, times 100, rounded to 2 decimal places (a tie goes
    to the even neighbour); 0 for no task. *)
Definition completion_rate_exact (task_set : gmap Z Task) : Q :=
  let total := Z.of_nat (size task_set) in
  let completed :=
    Z.of_nat (size (filter (λ t, status t.2 = "DONE") task_set)) in
  if total =? 0 then 0%Q
  else (inject_Z (round_half_even (10000 * completed) total) / 100)%Q.

(** How the rate [r] that the code computes stands to the exact one: it is
    0.0 for no task; otherwise it is the float nearest to [N / 100] for an
    integer [N] within [1/2 + 2 ^ -38] of [10000 * completed / total]; and
    it is the float nearest to the exact rate when
    [10000 * completed / total] is farther than [2 ^ -38] from the middle
    of two integers. *)
Definition rate_near_exact (task_set : gmap Z Task) (r : float) : Prop :=
  let total := Z.of_nat (size task_set) in
  let completed :=
    Z.of_nat (size (filter (λ t, status t.2 = "DONE") task_set)) in
  (total = 0 → r = 0%Q)
  ∧ (0 < total →
     ∃ N : Z,
       r = RN (inject_Z N / 100) ∧
       (Qabs (inject_Z N - 10000 * (inject_Z completed / inject_Z total))
        <= (1 # 2) + (1 # 2 ^ 38))%Q)
  ∧ (2 * total
     < 2 ^ 38 * Z.abs (2 * ((10000 * completed) mod total) - total) →
     r = RN (completion_rate_exact task_set)).

(** The float computation of the code on the counts of a task set: 0.0 for
    no task, else [round(completed / total * 100, 2)]. *)
Definition task_set_rate (task_set : gmap Z Task) : float :=
  let total := Z.of_nat (size task_set) in
  let completed :=
    Z.of_nat (size (filter (λ t, status t.2 = "DONE") task_set)) in
  if total =? 0 then 0%Q
  else round (fmul (RN (inject_Z completed / inject_Z total)) 100) 2.

(** The tasks of the project with key [k]. *)
Definition tasks_of_project (db : DB) (k : Z) : gmap Z Task :=
  filter (λ t, project_id t.2 = k) (tasks db).

(** The key that an optional [projectId] argument selects. *)
Definition selects (sel : option Z) (k : Z) : Prop :=
  match sel with
  | Some n => k = n
  | None => True
  end.

#[export] Instance selects_dec (sel : option Z) (k : Z) :
  Decision (selects sel k).
Proof. destruct sel; simpl; apply _. Defined.

(** The projects of organization [o], and their tasks, narrowed to the
    selected project. *)
Definition projects_in_scope (db : DB) (o : Z) (sel : option Z)
    : gmap Z Project :=
  filter (λ p, organization_id p.2 = o ∧ selects sel (pk p)) (projects db).

Definition tasks_in_scope (db : DB) (o : Z) (sel : option Z) : gmap Z Task :=
  filter (λ t, organization_id <$> projects db !! project_id t.2 = Some o ∧
               selects sel (project_id t.2))
    (tasks db).

(** What the specification asks of the rate [r] of a task set. *)
Definition rate_in_range (task_set : gmap Z Task) (r : float) : Prop :=
  (0 <= r <= 100)%Q
  ∧ (task_set = ∅ → r = 0%Q)
  ∧ (task_set ≠ ∅ → map_Forall (λ _ t, status t = "DONE") task_set →
     r = 100%Q).

(** Every foreign key names a row: a project its organization, a task its
    project, a comment its task. *)
Definition referential_integrity (db : DB) : Prop :=
  (∀ k p, projects db !! k = Some p →
          is_Some (organizations db !! organization_id p))
  ∧ (∀ k t, tasks db !! k = Some t → is_Some (projects db !! project_id t))
  ∧ (∀ k c, comments db !! k = Some c → is_Some (tasks db !! task_id c)).

(** A result lists [x] when the query returns a list that holds [x]. *)
Definition appears {A} (r : result (list A)) (x : A) : Prop :=
  ∃ l, r = Return l ∧ x ∈ l.

(** ** An instance for the examples

    Keys written as plain decimal numerals (Python's [int] also reads a
    leading [+], blanks around the digits and underscores between them; no
    example uses those), and the tables of the scenario of the
    specification: organization "acme" has project "Launch" with four
    tasks, two DONE, one IN_PROGRESS and one TODO; a second organization
    has a project with one task. *)
Definition decimal_key (v : ID) : option Z :=
  Z.of_int <$> NilZero.int_of_string v.

Definition acme : Organization :=
  {| name := "Acme"; slug := "acme"; contact_email := "ops@acme.test" |}.
Definition globex : Organization :=
  {| name := "Globex"; slug := "globex"; contact_email := "it@globex.test" |}.

Definition launch : Project :=
  {| organization_id := 1; project_name := "Launch";
     project_description := EmptyString; project_status := "ACTIVE";
     project_due_date := None |}.
Definition relocation : Project :=
  {| organization_id := 2; project_name := "Relocation";
     project_description := EmptyString; project_status := "ACTIVE";
     project_due_date := None |}.

Definition example_task (project : Z) (title0 status0 : string) : Task :=
  {| project_id := project; title := title0; description := EmptyString;
     status := status0; assignee_email := EmptyString; due_date := None |}.

Definition example_comment : TaskComment :=
  {| task_id := 1; content := "Looks good"; author_email := "a@acme.test" |}.

Definition example_db : DB :=
  {| organizations := {[ 1 := acme; 2 := globex ]};
     projects := {[ 1 := launch; 2 := relocation ]};
     tasks := {[ 1 := example_task 1 "Design" "DONE";
                 2 := example_task 1 "Build" "DONE";
                 3 := example_task 1 "Test" "IN_PROGRESS";
                 4 := example_task 1 "Ship" "TODO";
                 5 := example_task 2 "Pack" "TODO" ]};
     comments := {[ 1 := example_comment ]} |}.

(** One project with 160 tasks of which 23 are DONE: the exact rate 14.375
    is half way between 14.37 and 14.38. *)
Definition tie_db : DB :=
  {| organizations := {[ 1 := acme ]};
     projects := {[ 1 := launch ]};
     tasks :=
       list_to_map
         ((λ k, (Z.of_nat k,
                 example_task 1 "Step"
                   (if (k <=? 23)%nat then "DONE" else "TODO")))
            <$> seq 1 160);
     comments := ∅ |}.

(** * Properties *)

(** ** Tables and querysets *)

Lemma elem_of_objects {A} (table : gmap Z A) (k : Z) (x : A) :
  (k, x) ∈ objects table ↔ table !! k = Some x.
Proof. apply elem_of_map_to_list. Qed.

Lemma NoDup_objects {A} (table : gmap Z A) : NoDup (objects table).
Proof. apply NoDup_map_to_list. Qed.

Lemma objects_pk_inj {A} (table : gmap Z A) (x y : Z * A) :
  x ∈ objects table → y ∈ objects table → pk x = pk y → x = y.
Proof.
  destruct x as [i a], y as [j b]; rewrite !elem_of_objects; simpl.
  intros Ha Hb ->. congruence.
Qed.

(** A list without duplicates whose members all equal [x] is [[x]]. *)
Lemma NoDup_all_eq {A} (l : list A) (x : A) :
  NoDup l → x ∈ l → (∀ y, y ∈ l → y = x) → l = [x].
Proof.
  intros Hnd Hx Hall. destruct l as [|a l]; [by apply elem_of_nil in Hx|].
  assert (a = x) as -> by (apply Hall; left).
  f_equal. apply elem_of_nil_inv. intros y Hy.
  assert (y = x) as -> by (apply Hall; by right).
  by apply NoDup_cons in Hnd as [? _].
Qed.

Section get.
Context {A : Type} (P : A → Prop) `{!∀ x, Decision (P x)}.

Lemma get_filter_none (m : model) (l : list A) :
  (∀ x, x ∈ l → ¬ P x) → get m (filter P l) = Raise (DoesNotExist m).
Proof.
  intros Hno. replace (filter P l) with (@nil A); [done|].
  symmetry. apply elem_of_nil_inv. intros x [HP Hx]%list_elem_of_filter.
  by apply (Hno x).
Qed.

Lemma get_filter_unique (m : model) (l : list A) (x : A) :
  NoDup l → x ∈ l → P x → (∀ y, y ∈ l → P y → y = x) →
  get m (filter P l) = Return x.
Proof.
  intros Hnd Hx HP Hall.
  rewrite (NoDup_all_eq (filter P l) x); [done| | |].
  - by apply NoDup_filter.
  - by apply list_elem_of_filter.
  - intros y [? ?]%list_elem_of_filter. by apply Hall.
Qed.
End get.

Lemma NoDup_fmap_eq {A B} (f : A → B) (l : list A) (x y : A) :
  NoDup (f <$> l) → x ∈ l → y ∈ l → f x = f y → x = y.
Proof.
  induction l as [|a l IH]; simpl; [by intros _ ?%elem_of_nil|].
  rewrite NoDup_cons, !elem_of_cons. intros [Ha Hnd] [->|Hx] [->|Hy] Hf.
  - done.
  - destruct Ha. rewrite Hf. by apply list_elem_of_fmap_2.
  - destruct Ha. rewrite <- Hf. by apply list_elem_of_fmap_2.
  - by apply IH.
Qed.

Lemma slug_unique_pk (db : DB) (i j : Z) (o1 o2 : Organization) :
  slug_unique db →
  organizations db !! i = Some o1 → organizations db !! j = Some o2 →
  slug o1 = slug o2 → i = j.
Proof.
  intros Hu H1 H2 Hs.
  apply elem_of_objects in H1, H2.
  by pose proof (NoDup_fmap_eq _ _ (i, o1) (j, o2) Hu H1 H2 Hs) as [= -> _].
Qed.

(** ** Lookup of one organization *)

Lemma get_organization_none (db : DB) (s : string) :
  (∀ i o, organizations db !! i = Some o → slug o ≠ s) →
  get MOrganization (filter (λ o, slug o.2 = s) (objects (organizations db)))
  = Raise (DoesNotExist MOrganization).
Proof.
  intros Hno. apply get_filter_none. intros [i o] Hin%elem_of_objects.
  by apply (Hno i).
Qed.

Lemma get_organization_unique (db : DB) (s : string) (i : Z)
    (o : Organization) :
  organizations db !! i = Some o → slug o = s →
  (∀ j o', organizations db !! j = Some o' → slug o' = s → j = i) →
  get MOrganization (filter (λ o, slug o.2 = s) (objects (organizations db)))
  = Return (i, o).
Proof.
  intros Hi Hs Hu. apply get_filter_unique; [apply NoDup_objects| |done|].
  - by apply elem_of_objects.
  - intros [j o'] Hj Hs'. simpl in Hs'.
    apply (objects_pk_inj (organizations db)); [done|by apply elem_of_objects|].
    apply elem_of_objects in Hj. simpl. by apply (Hu j o').
Qed.

(** C8: [organization(slug=s)] returns the organization with slug [s] when
    exactly one row has that slug, and raises the exception
    ["Organization not found"] when no row has it. *)
Theorem resolve_organization_found_or_raises (db : DB) (s : string) :
  (∀ i o,
     organizations db !! i = Some o → slug o = s →
     (∀ j o', organizations db !! j = Some o' → slug o' = s → j = i) →
     resolve_organization db s = Return (i, o))
  ∧ ((∀ i o, organizations db !! i = Some o → slug o ≠ s) →
     resolve_organization db s = Raise (Exception "Organization not found")).
Proof.
  split.
  - intros i o Hi Hs Hu. unfold resolve_organization.
    by rewrite (get_organization_unique db s i o).
  - intros Hno. unfold resolve_organization.
    by rewrite get_organization_none.
Qed.

(** ** Projects of an organization *)

Lemma organization__slug_Some (db : DB) (p : Project) (s : string) :
  organization__slug db p = Some s ↔
  ∃ o, organizations db !! organization_id p = Some o ∧ slug o = s.
Proof.
  unfold organization__slug. rewrite fmap_Some. split.
  - intros (o & Ho & ->). by exists o.
  - intros (o & Ho & <-). by exists o.
Qed.

(** C2: for an organization [O] stored under key [i], with slugs unique,
    [projects(organizationSlug=O.slug)] holds exactly the projects whose
    organization is [O]. *)
Theorem resolve_projects_exactly_of_organization (db : DB) (i : Z)
    (O : Organization) (k : Z) (p : Project) :
  slug_unique db →
  organizations db !! i = Some O →
  (k, p) ∈ resolve_projects db (slug O) ↔
  projects db !! k = Some p ∧ organization_id p = i.
Proof.
  intros Hu HO. unfold resolve_projects.
  rewrite list_elem_of_filter, elem_of_objects, organization__slug_Some.
  simpl. split.
  - intros [(o & Ho & Hs) Hp]. split; [done|].
    by apply (slug_unique_pk db _ _ o O).
  - intros [Hp <-]. split; [|done]. by exists O.
Qed.

(** Boolean comparisons on [Z] in the hypotheses, as propositions. *)
Ltac Zbool :=
  repeat match goal with
  | H : (_ <? _) = true |- _ => apply Z.ltb_lt in H
  | H : (_ <? _) = false |- _ => apply Z.ltb_ge in H
  | H : (_ =? _) = true |- _ => apply Z.eqb_eq in H
  | H : (_ =? _) = false |- _ => apply Z.eqb_neq in H
  end.

(** ** Floats: the rounding functions *)

(** [round_half_even n d] is an integer nearest to [n / d], and is exact on
    the multiples of [d]. *)
Lemma round_half_even_nearest (n d : Z) :
  0 < d → - d ≤ 2 * (n - d * round_half_even n d) ≤ d.
Proof.
  intros Hd. unfold round_half_even.
  pose proof (Z.div_mod n d ltac:(lia)) as Hdm.
  pose proof (Z.mod_pos_bound n d Hd) as Hr.
  repeat case_match; Zbool; nia.
Qed.

Lemma round_half_even_exact (k d : Z) :
  0 < d → round_half_even (k * d) d = k.
Proof.
  intros Hd. unfold round_half_even.
  rewrite Z.div_mul, Z.mod_mul by lia.
  by replace (2 * 0 <? d) with true by (symmetry; apply Z.ltb_lt; lia).
Qed.

(** [ilog2 a b] is the exponent [e] with [2 ^ e ≤ a / b < 2 ^ (e + 1)]. *)
Lemma ilog2_spec (a b : Z) :
  0 < a → 0 < b →
  b * 2 ^ Z.max 0 (ilog2 a b) ≤ a * 2 ^ Z.max 0 (- ilog2 a b)
  ∧ a * 2 ^ Z.max 0 (- (ilog2 a b + 1)) < b * 2 ^ Z.max 0 (ilog2 a b + 1).
Proof.
  intros Ha Hb. unfold ilog2.
  pose proof (Z.log2_spec a Ha) as [Hla Hla'].
  pose proof (Z.log2_spec b Hb) as [Hlb Hlb'].
  pose proof (Z.log2_nonneg a). pose proof (Z.log2_nonneg b).
  set (la := Z.log2 a) in *. set (lb := Z.log2 b) in *.
  destruct (Z.ltb_spec (a * 2 ^ Z.max 0 (- (la - lb)))
              (b * 2 ^ Z.max 0 (la - lb))) as [Hlt|Hge].
  - replace (la - lb - 1 + 1) with (la - lb) by lia. split; [|done].
    destruct (Z.le_gt_cases 0 (la - lb - 1)) as [He|He].
    + rewrite (Z.max_r 0 (la - lb - 1)), (Z.max_l 0 (- (la - lb - 1))) by lia.
      assert (2 ^ la = 2 ^ Z.succ lb * 2 ^ (la - lb - 1)) as Hpow.
      { rewrite <- Z.pow_add_r by lia. f_equal. lia. }
      assert (0 < 2 ^ (la - lb - 1)) by (apply Z.pow_pos_nonneg; lia).
      nia.
    + rewrite (Z.max_l 0 (la - lb - 1)), (Z.max_r 0 (- (la - lb - 1))) by lia.
      assert (2 ^ Z.succ lb = 2 ^ la * 2 ^ (- (la - lb - 1))) as Hpow.
      { rewrite <- Z.pow_add_r by lia. f_equal. lia. }
      assert (0 < 2 ^ (- (la - lb - 1))) by (apply Z.pow_pos_nonneg; lia).
      nia.
  - split; [done|].
    destruct (Z.le_gt_cases 0 (la - lb + 1)) as [He|He].
    + rewrite (Z.max_r 0 (la - lb + 1)), (Z.max_l 0 (- (la - lb + 1))) by lia.
      assert (2 ^ Z.succ la = 2 ^ lb * 2 ^ (la - lb + 1)) as Hpow.
      { rewrite <- Z.pow_add_r by lia. f_equal. lia. }
      assert (0 < 2 ^ (la - lb + 1)) by (apply Z.pow_pos_nonneg; lia).
      nia.
    + rewrite (Z.max_l 0 (la - lb + 1)), (Z.max_r 0 (- (la - lb + 1))) by lia.
      assert (2 ^ lb = 2 ^ Z.succ la * 2 ^ (- (la - lb + 1))) as Hpow.
      { rewrite <- Z.pow_add_r by lia. f_equal. lia. }
      assert (0 < 2 ^ (- (la - lb + 1))) by (apply Z.pow_pos_nonneg; lia).
      nia.
Qed.

Lemma Qpower_2_neg (g : Z) :
  0 ≤ g → (Qpower 2 (- g) == / inject_Z (2 ^ g))%Q.
Proof.
  intros Hg. rewrite Qpower_opp.
  by rewrite (Zpower_Qpower 2 g Hg).
Qed.

(** The integers below [2 ^ 53] are floats: rounding leaves them as they
    are. *)
Lemma Qred_inject_Z (n : Z) : Qred (inject_Z n) = inject_Z n.
Proof. apply Qcanon.Qred_iff. simpl. apply Z.gcd_1_r. Qed.

Lemma RN_integer (n : Z) : 0 ≤ n < 2 ^ 53 → RN (inject_Z n) = inject_Z n.
Proof.
  intros Hn. unfold RN. rewrite Qred_inject_Z.
  destruct n as [|a|a]; simpl; [done| |lia].
  unfold RN_pos.
  pose proof (ilog2_spec (Z.pos a) 1 ltac:(lia) ltac:(lia)) as [Hlow Hup].
  set (e := ilog2 (Z.pos a) 1) in *.
  assert (0 ≤ e) as He0.
  { destruct (Z.le_gt_cases 0 e) as [|Hneg]; [done|].
    rewrite (Z.max_l 0 (e + 1)), (Z.max_r 0 (- (e + 1))) in Hup by lia.
    assert (0 < 2 ^ (- (e + 1))) by (apply Z.pow_pos_nonneg; lia).
    rewrite Z.pow_0_r in Hup. nia. }
  assert (e ≤ 52) as He1.
  { rewrite (Z.max_r 0 e), (Z.max_l 0 (- e)), Z.pow_0_r in Hlow by lia.
    apply Z.lt_succ_r, (Z.pow_lt_mono_r_iff 2); lia. }
  rewrite (Z.max_l (e - 52) (-1074)) by lia.
  rewrite (Z.max_l 0 (e - 52)), (Z.max_r 0 (- (e - 52))) by lia.
  assert (∀ k, round_half_even k 1 = k) as Hone.
  { intros k. rewrite <- (Z.mul_1_r k) at 1.
    apply round_half_even_exact. lia. }
  rewrite Z.pow_0_r. change (1 * 1) with 1. rewrite Hone.
  rewrite <- (Qred_inject_Z (Z.pos a)). apply Qred_complete.
  replace (e - 52) with (- - (e - 52)) at 2 by lia.
  rewrite Qpower_2_neg by lia. rewrite inject_Z_mult, <- Qmult_assoc.
  rewrite Qmult_inv_r, Qmult_1_r; [done|].
  assert (0 < 2 ^ (- (e - 52))) by (apply Z.pow_pos_nonneg; lia).
  intros H0. unfold Qeq in H0. simpl in H0. lia.
Qed.

(** ** Floats: rounding stays within integer bounds *)

Lemma round_half_even_nonneg (n d : Z) :
  0 ≤ n → 0 < d → 0 ≤ round_half_even n d.
Proof.
  intros Hn Hd. unfold round_half_even.
  assert (0 ≤ n / d) by (apply Z.div_pos; lia).
  repeat case_match; lia.
Qed.

Lemma round_half_even_le (n d k : Z) :
  0 < d → n ≤ k * d → round_half_even n d ≤ k.
Proof.
  intros Hd Hn. unfold round_half_even.
  pose proof (Z.div_mod n d ltac:(lia)) as Hdm.
  pose proof (Z.mod_pos_bound n d Hd) as Hr.
  repeat case_match; Zbool; nia.
Qed.

Lemma ilog2_lower (a b : Z) :
  0 < a → 0 < b → 0 ≤ ilog2 a b → b * 2 ^ ilog2 a b ≤ a.
Proof.
  intros Ha Hb. unfold ilog2.
  pose proof (Z.log2_spec a Ha) as [Hla _].
  pose proof (Z.log2_spec b Hb) as [_ Hlb].
  pose proof (Z.log2_nonneg a). pose proof (Z.log2_nonneg b).
  set (la := Z.log2 a) in *. set (lb := Z.log2 b) in *.
  destruct (Z.ltb_spec (a * 2 ^ Z.max 0 (- (la - lb)))
              (b * 2 ^ Z.max 0 (la - lb))) as [Hlt|Hge]; intros He.
  - assert (2 ^ la = 2 ^ Z.succ lb * 2 ^ (la - lb - 1)) as Hpow.
    { rewrite <- Z.pow_add_r by lia. f_equal. lia. }
    assert (0 < 2 ^ (la - lb - 1)) by (apply Z.pow_pos_nonneg; lia).
    nia.
  - rewrite (Z.max_l 0 (- (la - lb))), (Z.max_r 0 (la - lb)) in Hge by lia.
    rewrite Z.pow_0_r in Hge. lia.
Qed.

Lemma RN_pos_nonneg (a b : Z) : 0 < a → 0 < b → (0 <= RN_pos a b)%Q.
Proof.
  intros Ha Hb. unfold RN_pos. rewrite Qred_correct.
  apply Qmult_le_0_compat; [|by apply Qpower_0_le].
  rewrite <- (Zle_Qle 0). apply round_half_even_nonneg.
  - apply Z.mul_nonneg_nonneg; [lia|]. apply Z.pow_nonneg; lia.
  - apply Z.mul_pos_pos; [lia|]. apply Z.pow_pos_nonneg; lia.
Qed.

Lemma RN_pos_le (a b K : Z) :
  0 < a → 0 < b → K < 2 ^ 53 → a ≤ K * b →
  (RN_pos a b <= inject_Z K)%Q.
Proof.
  intros Ha Hb HK Hab. unfold RN_pos.
  assert (ilog2 a b ≤ 52) as He.
  { destruct (Z.le_gt_cases (ilog2 a b) 52) as [|Hgt]; [done|].
    pose proof (ilog2_lower a b Ha Hb ltac:(lia)) as Hlow.
    assert (2 ^ 53 ≤ 2 ^ ilog2 a b) by (apply Z.pow_le_mono_r; lia).
    nia. }
  set (f := Z.max (ilog2 a b - 52) (-1074)).
  assert (f ≤ 0) as Hf by (unfold f; lia).
  rewrite (Z.max_l 0 f), (Z.max_r 0 (- f)) by lia.
  rewrite Z.pow_0_r, Z.mul_1_r, Qred_correct.
  replace f with (- - f) at 2 by lia.
  rewrite Qpower_2_neg by lia.
  assert (0 < 2 ^ (- f)) as Hpos by (apply Z.pow_pos_nonneg; lia).
  apply Qle_shift_div_r.
  - by rewrite <- (Zlt_Qlt 0).
  - rewrite <- inject_Z_mult, <- Zle_Qle.
    apply round_half_even_le; [done|]. nia.
Qed.

Lemma RN_proper (x y : Q) : (x == y)%Q → RN x = RN y.
Proof. intros Hxy. unfold RN. by rewrite (Qred_complete x y Hxy). Qed.

Lemma RN_nonneg (x : Q) : (0 <= x)%Q → (0 <= RN x)%Q.
Proof.
  intros Hx. unfold RN.
  apply Qred_le in Hx. change (Qred 0) with 0%Q in Hx.
  destruct (Qred x) as [[|a|a] d]; simpl.
  - done.
  - by apply RN_pos_nonneg.
  - unfold Qle in Hx. simpl in Hx. lia.
Qed.

Lemma RN_le (x : Q) (K : Z) :
  K < 2 ^ 53 → (0 <= x)%Q → (x <= inject_Z K)%Q → (RN x <= inject_Z K)%Q.
Proof.
  intros HK Hx HxK. unfold RN.
  apply Qred_le in Hx. change (Qred 0) with 0%Q in Hx.
  rewrite <- (Qred_correct x) in HxK.
  destruct (Qred x) as [[|a|a] d]; simpl.
  - unfold Qle in *. simpl in *. lia.
  - apply RN_pos_le; [done|done|done|].
    unfold Qle in HxK. simpl in HxK. lia.
  - unfold Qle in Hx. simpl in Hx. lia.
Qed.

Lemma round_2_bounds (x : float) :
  (0 <= x)%Q → (x <= 100)%Q → (0 <= round x 2 <= 100)%Q.
Proof.
  intros H0 H100. unfold round.
  change (Qpower 10 2) with 100%Q.
  set (s := Qred (x * 100)).
  assert (0 <= s)%Q as Hs0.
  { unfold s. rewrite Qred_correct. by apply Qmult_le_0_compat. }
  assert (s <= 10000)%Q as Hs1.
  { unfold s. rewrite Qred_correct.
    change 10000%Q with (100 * 100)%Q. by apply Qmult_le_compat_r. }
  set (n := round_half_even (Qnum s) (Z.pos (Qden s))).
  assert (0 ≤ n) as Hn0.
  { apply round_half_even_nonneg; [|done].
    unfold Qle in Hs0. simpl in Hs0. lia. }
  assert (n ≤ 10000) as Hn1.
  { apply round_half_even_le; [done|].
    unfold Qle in Hs1. simpl in Hs1. lia. }
  assert (0 <= inject_Z n / 100)%Q as Hq0.
  { apply Qle_shift_div_l; [done|]. rewrite Qmult_0_l. by rewrite <- (Zle_Qle 0). }
  split; [by apply RN_nonneg|].
  apply (RN_le _ 100); [done|done|].
  apply Qle_shift_div_r; [done|].
  change (inject_Z 100 * 100)%Q with (inject_Z 10000). by rewrite <- Zle_Qle.
Qed.

(** The rate computed from the counts [completed ≤ total]. *)
Lemma rate_bounds (completed total : Z) :
  0 ≤ completed ≤ total → 0 < total →
  (0 <= round (fmul (RN (inject_Z completed / inject_Z total)) 100) 2 <= 100)%Q.
Proof.
  intros Hc Ht.
  assert (0 < inject_Z total)%Q as HtQ by (by rewrite <- (Zlt_Qlt 0)).
  assert (0 <= inject_Z completed / inject_Z total)%Q as Hq0.
  { apply Qle_shift_div_l; [done|]. rewrite Qmult_0_l.
    rewrite <- (Zle_Qle 0). lia. }
  assert (inject_Z completed / inject_Z total <= inject_Z 1)%Q as Hq1.
  { apply Qle_shift_div_r; [done|]. rewrite Qmult_1_l.
    rewrite <- Zle_Qle. lia. }
  pose proof (RN_nonneg _ Hq0) as Hr0.
  pose proof (RN_le _ 1 ltac:(done) Hq0 Hq1) as Hr1.
  set (q := RN (inject_Z completed / inject_Z total)) in *.
  apply round_2_bounds; unfold fmul.
  - apply RN_nonneg. by apply Qmult_le_0_compat.
  - apply (RN_le _ 100); [done|by apply Qmult_le_0_compat|].
    change (inject_Z 100) with (1 * inject_Z 100)%Q at 2.
    by apply Qmult_le_compat_r.
Qed.

Lemma rate_all_done (total : Z) :
  0 < total →
  round (fmul (RN (inject_Z total / inject_Z total)) 100) 2 = 100%Q.
Proof.
  intros Ht. rewrite (RN_proper _ 1); [by vm_compute|].
  apply Qmult_inv_r. intros H. unfold Qeq in H. simpl in H. lia.
Qed.

(** ** Floats: the distance of the rate from the exact one *)

Lemma frac_near (m a : Z) (b G D : positive) :
  Z.pos D ≤ 2 * Z.pos G →
  - Z.pos b ≤ 2 * (a * Z.pos G - Z.pos b * m) ≤ Z.pos b →
  ((a # b) - (1 # D) <= (m # G) <= (a # b) + (1 # D))%Q.
Proof.
  intros HD Hnear. unfold Qle, Qplus, Qminus, Qopp. simpl.
  rewrite !Pos2Z.inj_mul. split; nia.
Qed.

Lemma RN_pos_value (a b : Z) (g : Z) :
  0 ≤ g → Z.max (ilog2 a b - 52) (-1074) = - g →
  (RN_pos a b == round_half_even (a * 2 ^ g) b # Z.to_pos (2 ^ g))%Q.
Proof.
  intros Hg Hf. unfold RN_pos. rewrite Hf, Qred_correct.
  rewrite (Z.max_l 0 (- g)), (Z.max_r 0 (- - g)) by lia.
  rewrite Z.pow_0_r, Z.mul_1_r, Z.opp_involutive, Qpower_2_neg by done.
  assert (0 < 2 ^ g) by (apply Z.pow_pos_nonneg; lia).
  rewrite (Qmake_Qdiv _ (Z.to_pos (2 ^ g))), Z2Pos.id by done. reflexivity.
Qed.

Lemma ilog2_le (a b K E : Z) :
  0 < a → 0 < b → 0 ≤ E → K < 2 ^ (E + 1) → a ≤ K * b → ilog2 a b ≤ E.
Proof.
  intros Ha Hb HE HK Hab.
  destruct (Z.le_gt_cases (ilog2 a b) E) as [|Hgt]; [done|].
  pose proof (ilog2_lower a b Ha Hb ltac:(lia)) as Hlow.
  assert (2 ^ (E + 1) ≤ 2 ^ ilog2 a b) by (apply Z.pow_le_mono_r; lia).
  nia.
Qed.

Lemma RN_pos_near (a : Z) (b : positive) (K E : Z) :
  0 < a → 0 ≤ E ≤ 52 → K < 2 ^ (E + 1) → a ≤ K * Z.pos b →
  ((a # b) - (1 # Z.to_pos (2 ^ (53 - E))) <= RN_pos a (Z.pos b)
   <= (a # b) + (1 # Z.to_pos (2 ^ (53 - E))))%Q.
Proof.
  intros Ha HE HK Hab.
  pose proof (ilog2_le a (Z.pos b) K E Ha ltac:(lia) ltac:(lia) HK Hab) as He.
  set (g := - Z.max (ilog2 a (Z.pos b) - 52) (-1074)).
  assert (52 - E ≤ g) as Hg by (unfold g; lia).
  rewrite (RN_pos_value a (Z.pos b) g) by (unfold g; lia).
  assert (0 < 2 ^ g) as HG by (apply Z.pow_pos_nonneg; lia).
  assert (0 < 2 ^ (53 - E)) as HD by (apply Z.pow_pos_nonneg; lia).
  apply frac_near.
  - rewrite !Z2Pos.id by done.
    replace (2 * 2 ^ g) with (2 ^ (g + 1)) by (rewrite Z.pow_add_r; lia).
    apply Z.pow_le_mono_r; lia.
  - rewrite Z2Pos.id by done.
    pose proof (round_half_even_nearest (a * 2 ^ g) (Z.pos b) ltac:(lia)).
    lia.
Qed.

Lemma RN_near (x : Q) (K E : Z) :
  0 ≤ E ≤ 52 → K < 2 ^ (E + 1) → (0 <= x)%Q → (x <= inject_Z K)%Q →
  (x - (1 # Z.to_pos (2 ^ (53 - E))) <= RN x
   <= x + (1 # Z.to_pos (2 ^ (53 - E))))%Q.
Proof.
  intros HE HK Hx HxK. unfold RN.
  pose proof (Qred_correct x) as Hx'. set (x' := Qred x) in *.
  clearbody x'. rewrite <- Hx' in Hx, HxK |- *. clear Hx' x.
  destruct x' as [[|a|a] d]; cbn [Qnum Qden].
  - unfold Qle, Qplus, Qminus, Qopp. simpl. lia.
  - apply (RN_pos_near _ _ K); [done|done|done|].
    unfold Qle in HxK. simpl in HxK. lia.
  - unfold Qle in Hx. simpl in Hx. lia.
Qed.

Lemma round_half_even_Q (s : Q) :
  (inject_Z (round_half_even (Qnum s) (Z.pos (Qden s))) - (1 # 2) <= s
   <= inject_Z (round_half_even (Qnum s) (Z.pos (Qden s))) + (1 # 2))%Q.
Proof.
  destruct s as [n d]. cbn [Qnum Qden].
  pose proof (round_half_even_nearest n (Z.pos d) ltac:(lia)) as Hn.
  unfold Qle, Qplus, Qminus, Qopp, inject_Z. simpl.
  rewrite ?Pos2Z.inj_mul. split; lia.
Qed.

Lemma rate_near (completed total : Z) :
  0 ≤ completed ≤ total → 0 < total →
  ∃ N,
    round (fmul (RN (inject_Z completed / inject_Z total)) 100) 2
    = RN (inject_Z N / 100) ∧
    (Qabs (inject_Z N - 10000 * (inject_Z completed / inject_Z total))
     <= (1 # 2) + (1 # 2 ^ 38))%Q.
Proof.
  intros Hc Ht.
  assert (0 < inject_Z total)%Q as HtQ by (by rewrite <- (Zlt_Qlt 0)).
  set (q := (inject_Z completed / inject_Z total)%Q).
  assert (0 <= q)%Q as Hq0.
  { apply Qle_shift_div_l; [done|]. rewrite Qmult_0_l.
    rewrite <- (Zle_Qle 0). lia. }
  assert (q <= inject_Z 1)%Q as Hq1.
  { apply Qle_shift_div_r; [done|]. rewrite Qmult_1_l.
    rewrite <- Zle_Qle. lia. }
  pose proof (RN_nonneg _ Hq0) as Hx0.
  pose proof (RN_le _ 1 ltac:(done) Hq0 Hq1) as Hx1.
  pose proof (RN_near q 1 0 ltac:(lia) ltac:(done) Hq0 Hq1) as He1.
  set (x1 := RN q) in *.
  assert (0 <= x1 * inject_Z 100)%Q as Hy0 by (by apply Qmult_le_0_compat).
  assert (x1 * inject_Z 100 <= inject_Z 100)%Q as Hy1.
  { change (inject_Z 100) with (1 * inject_Z 100)%Q at 2.
    by apply Qmult_le_compat_r. }
  pose proof (RN_near _ 100 6 ltac:(lia) ltac:(done) Hy0 Hy1) as He2.
  unfold round, fmul. set (x2 := RN (x1 * inject_Z 100)) in *.
  change (Qpower 10 2) with 100%Q.
  pose proof (Qred_correct (x2 * 100)) as Hs.
  pose proof (round_half_even_Q (Qred (x2 * 100))) as HN.
  set (s := Qred (x2 * 100)) in *.
  exists (round_half_even (Qnum s) (Z.pos (Qden s))). split; [done|].
  set (N := inject_Z (round_half_even (Qnum s) (Z.pos (Qden s)))) in *.
  set (d0 := Z.to_pos (2 ^ (53 - 0))) in He1. vm_compute in d0. subst d0.
  set (d6 := Z.to_pos (2 ^ (53 - 6))) in He2. vm_compute in d6. subst d6.
  set (d38 := (2 ^ 38)%positive). vm_compute in d38. subst d38.
  change (inject_Z 100) with 100%Q in *.
  change (inject_Z 1) with 1%Q in *.
  apply Qabs_Qle_condition. clearbody s N x2 x1 q.
  rewrite Hs in HN. split; lra.
Qed.

Lemma tie_free_round (n t N : Z) :
  0 < t →
  2 * t < 2 ^ 38 * Z.abs (2 * (n mod t) - t) →
  2 ^ 38 * Z.abs (N * t - n) ≤ (2 ^ 37 + 1) * t →
  N = round_half_even n t.
Proof.
  intros Ht Htie HN. unfold round_half_even.
  pose proof (Z.div_mod n t ltac:(lia)) as Hdm.
  pose proof (Z.mod_pos_bound n t Ht) as Hr.
  set (q := n / t) in *. set (r := n mod t) in *.
  change (2 ^ 38) with 274877906944 in *.
  change (2 ^ 37) with 137438953472 in *.
  assert (N = q ∨ N = q + 1 ∨ N ≤ q - 1 ∨ q + 2 ≤ N) as Hcases by lia.
  repeat case_match; Zbool; destruct Hcases as [->|[->|[Hlt|Hgt]]];
    try done; try nia.
Qed.

Lemma Qabs_bound_Z (N c : Z) (t : positive) :
  (Qabs (inject_Z N - 10000 * (inject_Z c / inject_Z (Z.pos t)))
   <= (1 # 2) + (1 # 2 ^ 38))%Q →
  2 ^ 38 * Z.abs (N * Z.pos t - 10000 * c) ≤ (2 ^ 37 + 1) * Z.pos t.
Proof.
  rewrite <- (Qmake_Qdiv c t). intros [H1 H2]%Qabs_Qle_condition.
  set (d38 := (2 ^ 38)%positive) in *. vm_compute in d38. subst d38.
  change (2 ^ 38) with 274877906944. change (2 ^ 37) with 137438953472.
  unfold Qle, Qplus, Qminus, Qopp, Qmult, inject_Z in H1, H2.
  simpl in H1, H2. lia.
Qed.


Lemma objects_filter {A} (P : Z * A → Prop) `{!∀ x, Decision (P x)}
    (table : gmap Z A) :
  objects (filter P table) ≡ₚ filter P (objects table).
Proof.
  unfold objects. rewrite map_filter_alt. apply map_to_list_to_map.
  apply (sublist_NoDup _ ((map_to_list table).*1)).
  - apply NoDup_fst_map_to_list.
  - apply fmap_sublist, sublist_filter.
Qed.

Lemma count_objects {A} (table : gmap Z A) :
  count (objects table) = Z.of_nat (size table).
Proof. unfold count, objects. by rewrite length_map_to_list. Qed.

Lemma count_filter {A} (P : Z * A → Prop) `{!∀ x, Decision (P x)}
    (table : gmap Z A) :
  count (filter P (objects table)) = Z.of_nat (size (filter P table)).
Proof.
  rewrite <- count_objects. unfold count. by rewrite objects_filter.
Qed.

Lemma count_filter_filter {A} (P Q : Z * A → Prop)
    `{!∀ x, Decision (P x), !∀ x, Decision (Q x)} (table : gmap Z A) :
  count (filter Q (filter P (objects table)))
  = Z.of_nat (size (filter Q (filter P table))).
Proof.
  rewrite <- count_objects. unfold count.
  by rewrite !objects_filter.
Qed.

Lemma sum_ones {A} (l : list A) : sum ((λ _, 1) <$> l) = count l.
Proof.
  unfold sum, count.
  assert (∀ a, foldl Z.add a ((λ _, 1) <$> l) = a + Z.of_nat (length l))
    as H; [|by rewrite H].
  induction l as [|x l IH]; intros a; simpl; [lia|]. rewrite IH. lia.
Qed.

Lemma truediv_nonzero (a b : Z) :
  b ≠ 0 → truediv a b = Return (RN (inject_Z a / inject_Z b)).
Proof. unfold truediv. by intros ->%Z.eqb_neq. Qed.

(** The derived field of a project computes the rate of its task set. *)
Lemma resolve_completionRate_spec (db : DB) (self : Z * Project) :
  resolve_completionRate db self
  = Return (task_set_rate (tasks_of_project db (pk self))).
Proof.
  unfold resolve_completionRate, task_set_rate, related_tasks,
    tasks_of_project.
  rewrite count_filter_filter, count_filter.
  destruct (Z.eqb_spec (Z.of_nat (size
    (filter (λ t : Z * Task, project_id t.2 = pk self) (tasks db)))) 0)
    as [|Hne]; [done|].
  by rewrite (truediv_nonzero _ _ Hne).
Qed.

Lemma filter_disjoint_or {A} (P1 P2 : A → Prop)
    `{!∀ x, Decision (P1 x), !∀ x, Decision (P2 x)} (l : list A) :
  (∀ x, P1 x → P2 x → False) →
  filter (λ x, P1 x ∨ P2 x) l ≡ₚ filter P1 l ++ filter P2 l.
Proof.
  intros Hdisj. induction l as [|x l IH]; [done|].
  rewrite !filter_cons.
  destruct (decide (P1 x)) as [H1|H1], (decide (P2 x)) as [H2|H2].
  - destruct (Hdisj x H1 H2).
  - rewrite decide_True by auto. simpl. by rewrite IH.
  - rewrite decide_True by auto. rewrite IH. apply Permutation_middle.
  - rewrite decide_False by tauto. done.
Qed.

Lemma filter_False {A} (P : A → Prop) `{!∀ x, Decision (P x)} (l : list A) :
  (∀ x, ¬ P x) → filter P l = [].
Proof.
  intros HP. apply elem_of_nil_inv. intros x [? _]%list_elem_of_filter.
  by apply (HP x).
Qed.

(** The loop that extends [all_tasks] with the tasks of each project
    collects the tasks whose project is one of the projects. *)
Lemma all_tasks_Permutation (db : DB) (projects1 : list (Z * Project)) :
  NoDup projects1.*1 →
  foldl (λ acc project, acc ++ related_tasks db project) [] projects1
  ≡ₚ filter (λ t, project_id t.2 ∈ projects1.*1) (objects (tasks db)).
Proof.
  intros Hnd.
  enough (∀ acc,
    foldl (λ acc project, acc ++ related_tasks db project) acc projects1
    ≡ₚ acc ++ filter (λ t, project_id t.2 ∈ projects1.*1)
                (objects (tasks db))) as H by apply (H []).
  induction projects1 as [|p ps IH]; intros acc; simpl.
  - rewrite filter_False; [by rewrite app_nil_r|].
    intros t. apply not_elem_of_nil.
  - apply NoDup_cons in Hnd as [Hp Hnd]. rewrite (IH Hnd).
    rewrite <- app_assoc. apply Permutation_app_head.
    unfold related_tasks, pk.
    rewrite <- filter_disjoint_or by (intros t -> ?; done).
    erewrite list_filter_iff; [done|]. intros t. simpl.
    by rewrite elem_of_cons.
Qed.

Lemma scope_filter (db : DB) (o : Z) (sel : option Z) :
  match sel with
  | Some n => filter (λ p, pk p = n)
                (filter (λ p, organization_id p.2 = o) (objects (projects db)))
  | None => filter (λ p, organization_id p.2 = o) (objects (projects db))
  end
  = filter (λ p, organization_id p.2 = o ∧ selects sel (pk p))
      (objects (projects db)).
Proof.
  destruct sel as [n|]; simpl.
  - rewrite list_filter_filter. apply list_filter_iff. tauto.
  - apply list_filter_iff. tauto.
Qed.

Lemma scope_keys (db : DB) (o : Z) (sel : option Z) (k : Z) :
  k ∈ (filter (λ p, organization_id p.2 = o ∧ selects sel (pk p))
         (objects (projects db))).*1
  ↔ organization_id <$> projects db !! k = Some o ∧ selects sel k.
Proof.
  rewrite list_elem_of_fmap. split.
  - intros ([k' p] & -> & [[Ho Hsel] Hin%elem_of_objects]%list_elem_of_filter).
    simpl in *. by rewrite Hin, <- Ho.
  - intros [(p & Hp & Ho)%fmap_Some Hsel]. exists (k, p).
    split; [done|]. apply list_elem_of_filter. split; [done|].
    by apply elem_of_objects.
Qed.

Section all_tasks.
Context (db : DB) (o : Z) (sel : option Z).

Let projects1 :=
  filter (λ p, organization_id p.2 = o ∧ selects sel (pk p))
    (objects (projects db)).
Let all_tasks :=
  foldl (λ acc project, acc ++ related_tasks db project) [] projects1.

Lemma all_tasks_scope :
  all_tasks
  ≡ₚ filter (λ t, organization_id <$> projects db !! project_id t.2 = Some o
                  ∧ selects sel (project_id t.2))
       (objects (tasks db)).
Proof.
  unfold all_tasks. rewrite all_tasks_Permutation.
  - erewrite list_filter_iff; [done|]. intros t. apply scope_keys.
  - apply (sublist_NoDup _ ((objects (projects db)).*1)).
    + apply NoDup_fst_map_to_list.
    + apply fmap_sublist, sublist_filter.
Qed.

Lemma count_projects1 :
  count projects1 = Z.of_nat (size (projects_in_scope db o sel)).
Proof. apply count_filter. Qed.

Lemma count_all_tasks :
  count all_tasks = Z.of_nat (size (tasks_in_scope db o sel)).
Proof.
  unfold count. rewrite all_tasks_scope. apply count_filter.
Qed.

Lemma count_filter_all_tasks (Q : Z * Task → Prop)
    `{!∀ x, Decision (Q x)} :
  count (filter Q all_tasks)
  = Z.of_nat (size (filter Q (tasks_in_scope db o sel))).
Proof.
  unfold count. rewrite all_tasks_scope. apply count_filter_filter.
Qed.
End all_tasks.

Section Scoped.

(** The conversion of lookup values to primary keys, as in [Schema]; the
    empty string is no key. *)
Variable get_prep_value : ID → option Z.
Hypothesis get_prep_value_empty : get_prep_value EmptyString = None.

Lemma prep_Some (v : ID) (n : Z) :
  get_prep_value v = Some n → prep get_prep_value v = Return n.
Proof. unfold prep. by intros ->. Qed.

Lemma truthy_nonempty (v : ID) : v ≠ EmptyString → truthy (Some v) = true.
Proof. intros Hv. simpl. by destruct (String.eqb_spec v EmptyString). Qed.

Lemma truthy_key (v : ID) (n : Z) :
  get_prep_value v = Some n → truthy (Some v) = true.
Proof.
  intros Hv. simpl. destruct (String.eqb_spec v EmptyString); [|done].
  subst v. congruence.
Qed.

(** ** Tasks of an organization *)

(** C1, amended: a task is listed by [tasks(organizationSlug=s)] exactly
    when the slug of its project's organization is [s]; with a project id
    that is not empty and denotes the key [n], exactly when moreover its
    project is [n]; an empty project id narrows nothing. *)
Theorem resolve_tasks_iff (db : DB) (s : string) :
  (∃ l, resolve_tasks get_prep_value db s None = Return l ∧
        ∀ k T, (k, T) ∈ l ↔
               tasks db !! k = Some T ∧
               project__organization__slug db T = Some s)
  ∧ (∀ (p : ID) n, p ≠ EmptyString → get_prep_value p = Some n →
      ∃ l, resolve_tasks get_prep_value db s (Some p) = Return l ∧
           ∀ k T, (k, T) ∈ l ↔
                  tasks db !! k = Some T ∧
                  project__organization__slug db T = Some s ∧
                  project_id T = n)
  ∧ resolve_tasks get_prep_value db s (Some EmptyString)
    = resolve_tasks get_prep_value db s None.
Proof.
  split; [|split].
  - eexists; split; [reflexivity|]. intros k T.
    rewrite list_elem_of_filter, elem_of_objects. simpl. tauto.
  - intros p n Hne Hp. unfold resolve_tasks.
    rewrite (truthy_nonempty p Hne), (prep_Some p n Hp). simpl.
    eexists; split; [reflexivity|]. intros k T.
    rewrite !list_elem_of_filter, elem_of_objects. simpl. tauto.
  - reflexivity.
Qed.

(** C10: when the project with key [n] belongs to no organization with
    slug [s], [tasks(organizationSlug=s, projectId=n)] is empty. *)
Theorem resolve_tasks_cross_tenant_empty (db : DB) (s : string) (p : ID)
    (n : Z) (pr : Project) :
  get_prep_value p = Some n →
  projects db !! n = Some pr →
  (∀ i O, organizations db !! i = Some O → slug O = s →
          organization_id pr ≠ i) →
  resolve_tasks get_prep_value db s (Some p) = Return [].
Proof.
  intros Hp Hpr Hother. unfold resolve_tasks.
  rewrite (truthy_key p n Hp), (prep_Some p n Hp). simpl. f_equal.
  apply elem_of_nil_inv. intros [k T].
  rewrite !list_elem_of_filter. simpl. intros (Hn & Hs & _).
  unfold project__organization__slug in Hs. rewrite Hn, Hpr in Hs.
  simpl in Hs. apply organization__slug_Some in Hs as (O & HO & HsO).
  by apply (Hother _ O HO HsO).
Qed.

(** ** Comments of a task *)

Lemma get_task_none (db : DB) (n : Z) (s : string) :
  (∀ T, tasks db !! n = Some T → project__organization__slug db T ≠ Some s) →
  get MTask
    (filter (λ t, pk t = n ∧ project__organization__slug db t.2 = Some s)
       (objects (tasks db)))
  = Raise (DoesNotExist MTask).
Proof.
  intros Hno. apply get_filter_none.
  intros [k T] Hin%elem_of_objects [Hk Hs]. simpl in *. subst k.
  by apply (Hno T).
Qed.

Lemma get_task_found (db : DB) (n : Z) (s : string) (T : Task) :
  tasks db !! n = Some T → project__organization__slug db T = Some s →
  get MTask
    (filter (λ t, pk t = n ∧ project__organization__slug db t.2 = Some s)
       (objects (tasks db)))
  = Return (n, T).
Proof.
  intros HT Hs. apply get_filter_unique; [apply NoDup_objects| |done|].
  - by apply elem_of_objects.
  - intros y Hy [Hk _].
    apply (objects_pk_inj (tasks db)); [done|by apply elem_of_objects|done].
Qed.

(** C4, amended: for a task id that denotes the key [n], [taskComments]
    returns the empty list, and no error, when no task [n] lies within the
    organization, and the comments of task [n] when it does; for a task id
    that denotes no key it raises [ValueError]. *)
Theorem resolve_taskComments_soft_empty (db : DB) (taskId : ID) (s : string) :
  (∀ n, get_prep_value taskId = Some n →
     ((∀ T, tasks db !! n = Some T →
            project__organization__slug db T ≠ Some s) →
      resolve_taskComments get_prep_value db taskId s = Return [])
     ∧ (∀ T, tasks db !! n = Some T →
             project__organization__slug db T = Some s →
             ∃ l, resolve_taskComments get_prep_value db taskId s = Return l ∧
                  ∀ k c, (k, c) ∈ l ↔
                         comments db !! k = Some c ∧ task_id c = n))
  ∧ (get_prep_value taskId = None →
     resolve_taskComments get_prep_value db taskId s = Raise ValueError).
Proof.
  split.
  - intros n Hid. split.
    + intros Hno. unfold resolve_taskComments.
      rewrite (prep_Some taskId n Hid). simpl.
      by rewrite (get_task_none db n s Hno).
    + intros T HT Hs. unfold resolve_taskComments.
      rewrite (prep_Some taskId n Hid). simpl.
      rewrite (get_task_found db n s T HT Hs). simpl.
      eexists; split; [reflexivity|]. intros k c.
      rewrite list_elem_of_filter, elem_of_objects. simpl. tauto.
  - intros Hid. unfold resolve_taskComments, prep. by rewrite Hid.
Qed.

(** ** Soft and hard failures *)

(** C5: for a slug that no organization has, [projectStatistics] returns
    no record, without an error, where [organization] raises. *)
Theorem resolve_projectStatistics_missing_organization (db : DB) (s : string)
    (projectId : option ID) :
  (∀ i o, organizations db !! i = Some o → slug o ≠ s) →
  resolve_projectStatistics get_prep_value db s projectId = Return None
  ∧ resolve_organization db s = Raise (Exception "Organization not found").
Proof.
  intros Hno. unfold resolve_projectStatistics, resolve_organization.
  by rewrite (get_organization_none db s Hno).
Qed.

(** C6: for a slug that no organization has, [createProject] raises
    ["Organization not found"] and leaves every table as it was. *)
Theorem CreateProject_missing_organization (db : DB) (s name0 : string)
    (description0 status0 : string) (dueDate : option date) :
  (∀ i o, organizations db !! i = Some o → slug o ≠ s) →
  CreateProject_mutate db s name0 description0 status0 dueDate
  = (db, Raise (Exception "Organization not found")).
Proof.
  intros Hno. unfold CreateProject_mutate.
  by rewrite (get_organization_none db s Hno).
Qed.

(** [projectStatistics] for the organization stored under key [i]: the
    counts and the rate of the task set in scope. *)
Lemma resolve_projectStatistics_spec (db : DB) (s : string)
    (projectId : option ID) (i : Z) (O : Organization) (sel : option Z) :
  slug_unique db →
  organizations db !! i = Some O → slug O = s →
  selected get_prep_value projectId = Return sel →
  resolve_projectStatistics get_prep_value db s projectId
  = Return (Some {|
      totalProjects := Z.of_nat (size (projects_in_scope db i sel));
      totalTasks := Z.of_nat (size (tasks_in_scope db i sel));
      completedTasks :=
        Z.of_nat (size (filter (λ t, status t.2 = "DONE")
                          (tasks_in_scope db i sel)));
      activeTasks :=
        Z.of_nat (size (filter (λ t, status t.2 = "IN_PROGRESS")
                          (tasks_in_scope db i sel)));
      completionRate := task_set_rate (tasks_in_scope db i sel) |}).
Proof.
  intros Hu HO Hs Hsel. unfold resolve_projectStatistics.
  rewrite (get_organization_unique db s i O HO Hs).
  2: { intros j O' HO' Hs'. apply (slug_unique_pk db j i O' O); congruence. }
  cbn [mbind result_bind pk fst].
  assert (match projectId with
          | Some p =>
              if truthy projectId then
                n ← prep get_prep_value p;
                Return (filter (λ p, pk p = n)
                  (filter (λ p, organization_id p.2 = i)
                     (objects (projects db))))
              else Return (filter (λ p, organization_id p.2 = i)
                             (objects (projects db)))
          | None => Return (filter (λ p, organization_id p.2 = i)
                              (objects (projects db)))
          end
          = Return (filter (λ p, organization_id p.2 = i ∧ selects sel (pk p))
                      (objects (projects db)))) as ->.
  { rewrite <- scope_filter. unfold selected in Hsel.
    destruct projectId as [p|]; [|by injection Hsel as <-].
    destruct (truthy (Some p)); [|by injection Hsel as <-].
    destruct (prep get_prep_value p) as [n|e]; [|done].
    by injection Hsel as <-. }
  cbn [mbind result_bind try_except].
  rewrite !sum_ones, count_projects1, count_all_tasks,
    !count_filter_all_tasks.
  unfold task_set_rate.
  set (total := Z.of_nat (size (tasks_in_scope db i sel))).
  destruct (Z.eqb_spec total 0) as [->|Hne]; [done|].
  replace (0 <? total) with true by (symmetry; apply Z.ltb_lt; lia).
  by rewrite (truediv_nonzero _ _ Hne).
Qed.

Lemma filter_all {A} (P : Z * A → Prop) `{!∀ x, Decision (P x)}
    (m : gmap Z A) :
  map_Forall (λ k x, P (k, x)) m → filter P m = m.
Proof.
  intros Hall. apply map_filter_id. intros k x Hk. by apply Hall.
Qed.

Lemma task_set_rate_in_range (task_set : gmap Z Task) :
  rate_in_range task_set (task_set_rate task_set).
Proof.
  unfold rate_in_range, task_set_rate.
  destruct (Z.eqb_spec (Z.of_nat (size task_set)) 0) as [H0|Hne].
  - split; [done|]. split; [done|]. intros Hne.
    apply map_size_non_empty_iff in Hne. lia.
  - split; [|split].
    + apply rate_bounds; [|lia]. split; [lia|].
      apply Nat2Z.inj_le, map_size_filter.
    + intros ->. by rewrite map_size_empty in Hne.
    + intros _ Hall. rewrite filter_all by done. apply rate_all_done. lia.
Qed.

Lemma task_set_rate_near_exact (task_set : gmap Z Task) :
  rate_near_exact task_set (task_set_rate task_set).
Proof.
  unfold rate_near_exact, task_set_rate, completion_rate_exact.
  set (completed :=
    Z.of_nat (size (filter (λ t : Z * Task, status t.2 = "DONE") task_set))).
  assert (0 ≤ completed ≤ Z.of_nat (size task_set)) as Hc.
  { unfold completed. split; [lia|].
    apply Nat2Z.inj_le, map_size_filter. }
  destruct (Z.of_nat (size task_set)) as [|t|t] eqn:Ht; [| |lia].
  - assert (completed = 0) as -> by lia. split; [done|].
    split; [lia|]. intros Htie. by vm_compute in Htie.
  - cbn [Z.eqb].
    destruct (rate_near completed (Z.pos t) Hc ltac:(lia)) as (N & Hr & HN).
    split; [lia|]. split; [intros _; by exists N|].
    intros Htie. rewrite Hr.
    assert (N = round_half_even (10000 * completed) (Z.pos t)) as ->; [|done].
    apply tie_free_round; [lia|done|]. by apply Qabs_bound_Z.
Qed.

(** Below [2 ^ 37] tasks the only exception is an exact tie. *)
Lemma task_set_rate_exact_unless_tie (task_set : gmap Z Task) :
  Z.of_nat (size task_set) < 2 ^ 37 →
  2 * ((10000 * Z.of_nat (size (filter (λ t, status t.2 = "DONE") task_set)))
       mod Z.of_nat (size task_set))
  ≠ Z.of_nat (size task_set) →
  task_set_rate task_set = RN (completion_rate_exact task_set).
Proof.
  intros Hsmall Htie.
  apply (proj2 (proj2 (task_set_rate_near_exact task_set))).
  change (2 ^ 37) with 137438953472 in Hsmall.
  change (2 ^ 38) with 274877906944. lia.
Qed.

(** C3, amended: the [completionRate] field of a project and the rate of
    [projectStatistics] are 0.0 for an empty task set; otherwise the rate
    is the float nearest to [N / 100] for an integer [N] within
    [1/2 + 2 ^ -38] of 10000 times the number of DONE tasks divided by the
    number of tasks, and it is the float nearest to the exactly rounded
    rate unless that quotient is within [2 ^ -38] of the middle of two
    integers. *)
Theorem completion_rate_formula (db : DB) :
  (∀ self,
     ∃ r, resolve_completionRate db self = Return r ∧
          rate_near_exact (tasks_of_project db (pk self)) r)
  ∧ (∀ s projectId i O sel,
       slug_unique db →
       organizations db !! i = Some O → slug O = s →
       selected get_prep_value projectId = Return sel →
       ∃ st,
         resolve_projectStatistics get_prep_value db s projectId
         = Return (Some st) ∧
         rate_near_exact (tasks_in_scope db i sel) (completionRate st)).
Proof.
  split.
  - intros self. rewrite resolve_completionRate_spec.
    eexists; split; [done|]. apply task_set_rate_near_exact.
  - intros s projectId i O sel Hu HO Hs Hsel.
    rewrite (resolve_projectStatistics_spec db s projectId
               i O sel Hu HO Hs Hsel).
    eexists; split; [done|]. apply task_set_rate_near_exact.
Qed.

(** C9: the rate of a project and the rate of [projectStatistics] lie
    between 0 and 100, are 0.0 for an empty task set, and are 100.0 for a
    task set, not empty, whose tasks all have status DONE. *)
Theorem completion_rate_range (db : DB) :
  (∀ self,
     ∃ r, resolve_completionRate db self = Return r ∧
          rate_in_range (tasks_of_project db (pk self)) r)
  ∧ (∀ s projectId i O sel,
       slug_unique db →
       organizations db !! i = Some O → slug O = s →
       selected get_prep_value projectId = Return sel →
       ∃ st,
         resolve_projectStatistics get_prep_value db s projectId
         = Return (Some st) ∧
         rate_in_range (tasks_in_scope db i sel) (completionRate st)).
Proof.
  split.
  - intros self. rewrite resolve_completionRate_spec.
    eexists; split; [done|]. apply task_set_rate_in_range.
  - intros s projectId i O sel Hu HO Hs Hsel.
    rewrite (resolve_projectStatistics_spec db s projectId
               i O sel Hu HO Hs Hsel).
    eexists; split; [done|]. apply task_set_rate_in_range.
Qed.

(** C7: [updateTask] on a task of the organization overwrites the fields
    that are supplied and keeps the others; with only [status] supplied,
    the status alone changes.  No other row is touched. *)
Theorem UpdateTask_overwrites_supplied_only (db : DB) (id : ID) (n : Z)
    (s : string) (T : Task)
    (title0 description0 status0 assigneeEmail : option string)
    (dueDate : option datetime) :
  get_prep_value id = Some n →
  tasks db !! n = Some T →
  project__organization__slug db T = Some s →
  ∃ db' T',
    UpdateTask_mutate get_prep_value db id s
      title0 description0 status0 assigneeEmail dueDate
    = (db', Return (n, T')) ∧
    tasks db' !! n = Some T' ∧
    title T' = default (title T) title0 ∧
    description T' = default (description T) description0 ∧
    status T' = default (status T) status0 ∧
    assignee_email T' = default (assignee_email T) assigneeEmail ∧
    due_date T' = from_option Some (due_date T) dueDate ∧
    project_id T' = project_id T ∧
    (∀ k, k ≠ n → tasks db' !! k = tasks db !! k) ∧
    organizations db' = organizations db ∧
    projects db' = projects db ∧
    comments db' = comments db.
Proof.
  intros Hid HT Hs. unfold UpdateTask_mutate.
  rewrite (prep_Some id n Hid).
  cbn [mbind result_bind].
  rewrite (get_task_found db n s T HT Hs).
  eexists _, _. split; [reflexivity|]. cbn [pk fst snd tasks organizations
    projects comments].
  split; [apply lookup_insert_eq|].
  repeat split;
    try (by destruct title0, description0, status0, assigneeEmail, dueDate).
  intros k Hk. by apply lookup_insert_ne.
Qed.

End Scoped.

(** * The scenario of the specification *)

Lemma slug_unique_example_db : slug_unique example_db.
Proof. unfold slug_unique. apply (bool_decide_unpack _). by vm_compute. Qed.

Example projectStatistics_acme :
  resolve_projectStatistics decimal_key example_db "acme" None
  = Return (Some {| totalProjects := 1; totalTasks := 4;
                    completedTasks := 2; activeTasks := 1;
                    completionRate := 50%Q |}).
Proof. by vm_compute. Qed.

Example taskComments_999 :
  resolve_taskComments decimal_key example_db "999" "acme" = Return [].
Proof. by vm_compute. Qed.

Example organization_ghost :
  resolve_organization example_db "ghost"
  = Raise (Exception "Organization not found").
Proof. by vm_compute. Qed.

Example completionRate_launch :
  resolve_completionRate example_db (1, launch) = Return 50%Q.
Proof. by vm_compute. Qed.

Example createProject_acme :
  (CreateProject_mutate example_db "acme" "Survey"
     CreateProject_default_description CreateProject_default_status None).2
  = Return (3, {| organization_id := 1; project_name := "Survey";
                  project_description := EmptyString;
                  project_status := "ACTIVE"; project_due_date := None |})
  ∧ size (projects (CreateProject_mutate example_db "acme" "Survey"
            CreateProject_default_description CreateProject_default_status
            None).1) = 3%nat.
Proof. by vm_compute. Qed.

(** One task of three gives the float nearest to 33.33; one of 32 gives
    3.125, which [round] takes to the even neighbour 3.12. *)
Example rate_one_of_three :
  round (fmul (RN (1 # 3)) 100) 2 = RN (3333 # 100).
Proof. by vm_compute. Qed.

Example rate_one_of_32 :
  round (fmul (RN (1 # 32)) 100) 2 = RN (312 # 100).
Proof. by vm_compute. Qed.

(** * Instances of the theorems on the example tables *)

Lemma no_slug_Forall (db : DB) (s : string) :
  Forall (λ o, slug o.2 ≠ s) (objects (organizations db)) →
  ∀ i o, organizations db !! i = Some o → slug o ≠ s.
Proof.
  intros Hall i o Hi%elem_of_objects.
  by apply (proj1 (Forall_forall _ _) Hall (i, o)).
Qed.

Lemma no_ghost : ∀ i o, organizations example_db !! i = Some o → slug o ≠ "ghost".
Proof. apply no_slug_Forall. apply (bool_decide_unpack _). by vm_compute. Qed.

(** C1 as stated fails for the empty project id: task 1 of "acme" is
    listed although no project has the empty id. *)
Lemma resolve_tasks_empty_projectId_counterexample :
  ¬ (appears (resolve_tasks decimal_key example_db "acme" (Some EmptyString))
       (1, example_task 1 "Design" "DONE")
     ↔ tasks example_db !! 1 = Some (example_task 1 "Design" "DONE") ∧
       project__organization__slug example_db
         (example_task 1 "Design" "DONE") = Some "acme" ∧
       decimal_key EmptyString = Some (project_id (example_task 1 "Design" "DONE"))).
Proof.
  intros [H _]. destruct H as (_ & _ & H); [|discriminate H].
  eexists; split; [reflexivity|].
  apply list_elem_of_filter. split; [by vm_compute|].
  by apply elem_of_objects.
Qed.

Lemma resolve_tasks_iff_witness :
  ∃ l, resolve_tasks decimal_key example_db "acme" (Some "1") = Return l ∧
       ∀ k T, (k, T) ∈ l ↔
              tasks example_db !! k = Some T ∧
              project__organization__slug example_db T = Some "acme" ∧
              project_id T = 1.
Proof.
  apply (proj1 (proj2 (resolve_tasks_iff decimal_key example_db "acme")) "1" 1).
  - discriminate.
  - reflexivity.
Defined.

Lemma resolve_projects_exactly_of_organization_witness :
  (1, launch) ∈ resolve_projects example_db "acme" ↔
  projects example_db !! 1 = Some launch ∧ organization_id launch = 1.
Proof.
  apply (resolve_projects_exactly_of_organization example_db 1 acme 1 launch).
  - apply slug_unique_example_db.
  - reflexivity.
Defined.

Lemma resolve_organization_found_or_raises_witness :
  resolve_organization example_db "acme" = Return (1, acme)
  ∧ resolve_organization example_db "ghost"
    = Raise (Exception "Organization not found").
Proof.
  split.
  - apply (proj1 (resolve_organization_found_or_raises example_db "acme")
             1 acme); [reflexivity|reflexivity|].
    intros j o' Hj Hs.
    apply (slug_unique_pk example_db j 1 o' acme);
      [apply slug_unique_example_db|done|reflexivity|done].
  - apply (proj2 (resolve_organization_found_or_raises example_db "ghost")).
    apply no_ghost.
Defined.

Lemma resolve_tasks_cross_tenant_empty_witness :
  resolve_tasks decimal_key example_db "acme" (Some "2") = Return [].
Proof.
  apply (resolve_tasks_cross_tenant_empty decimal_key eq_refl
           example_db "acme" "2" 2 relocation); [reflexivity|reflexivity|].
  intros i O HO Hs <-. vm_compute in HO. injection HO as <-. discriminate Hs.
Defined.

Lemma resolve_taskComments_soft_empty_witness :
  resolve_taskComments decimal_key example_db "999" "acme" = Return []
  ∧ (∃ l, resolve_taskComments decimal_key example_db "1" "acme" = Return l ∧
          ∀ k c, (k, c) ∈ l ↔
                 comments example_db !! k = Some c ∧ task_id c = 1)
  ∧ resolve_taskComments decimal_key example_db "abc" "acme"
    = Raise ValueError.
Proof.
  split; [|split].
  - apply (proj1 (proj1 (resolve_taskComments_soft_empty decimal_key
                           example_db "999" "acme") 999 eq_refl)).
    intros T HT. vm_compute in HT. discriminate HT.
  - apply (proj2 (proj1 (resolve_taskComments_soft_empty decimal_key
                           example_db "1" "acme") 1 eq_refl)
             (example_task 1 "Design" "DONE"));
      reflexivity.
  - apply (proj2 (resolve_taskComments_soft_empty decimal_key example_db
                    "abc" "acme")). reflexivity.
Defined.

(** C4 as stated fails for a task id that denotes no key: no task with the
    id "abc" belongs to "acme", and the query raises. *)
Lemma resolve_taskComments_malformed_id_counterexample :
  ¬ ((∀ n T, decimal_key "abc" = Some n →
             tasks example_db !! n = Some T →
             project__organization__slug example_db T ≠ Some "acme") →
     resolve_taskComments decimal_key example_db "abc" "acme" = Return []).
Proof.
  intros H. assert (resolve_taskComments decimal_key example_db "abc" "acme"
                    = Return []) as Hr; [|by vm_compute in Hr].
  apply H. intros n T Hn. by vm_compute in Hn.
Qed.

Lemma resolve_projectStatistics_missing_organization_witness :
  resolve_projectStatistics decimal_key example_db "ghost" None = Return None
  ∧ resolve_organization example_db "ghost"
    = Raise (Exception "Organization not found").
Proof.
  apply (resolve_projectStatistics_missing_organization decimal_key
           example_db "ghost" None).
  apply no_ghost.
Defined.

Lemma CreateProject_missing_organization_witness :
  CreateProject_mutate example_db "ghost" "Survey"
    CreateProject_default_description CreateProject_default_status None
  = (example_db, Raise (Exception "Organization not found")).
Proof.
  apply (CreateProject_missing_organization example_db "ghost" "Survey").
  apply no_ghost.
Defined.

Lemma completion_rate_formula_witness :
  ∃ st,
    resolve_projectStatistics decimal_key example_db "acme" (Some "1")
    = Return (Some st) ∧
    rate_near_exact (tasks_in_scope example_db 1 (Some 1))
      (completionRate st).
Proof.
  apply (proj2 (completion_rate_formula decimal_key example_db)
           "acme" (Some "1") 1 acme (Some 1)).
  - apply slug_unique_example_db.
  - reflexivity.
  - reflexivity.
  - reflexivity.
Defined.

(** C3 as stated fails for 23 DONE tasks of 160: the exact rate 14.375
    rounds to 14.38, the floats give 14.37 on both paths. *)
Lemma completion_rate_tie_counterexample :
  (completion_rate_exact (tasks_of_project tie_db 1) == 1438 # 100)%Q
  ∧ resolve_completionRate tie_db (1, launch) = Return (RN (1437 # 100))
  ∧ resolve_completionRate tie_db (1, launch)
    ≠ Return (RN (completion_rate_exact (tasks_of_project tie_db 1)))
  ∧ resolve_projectStatistics decimal_key tie_db "acme" None
    = Return (Some {| totalProjects := 1; totalTasks := 160;
                      completedTasks := 23; activeTasks := 0;
                      completionRate := RN (1437 # 100) |}).
Proof.
  split; [by vm_compute|]. split; [by vm_compute|].
  split; [|by vm_compute]. vm_compute. discriminate.
Qed.

Lemma completion_rate_range_witness :
  ∃ st,
    resolve_projectStatistics decimal_key example_db "acme" None
    = Return (Some st) ∧
    rate_in_range (tasks_in_scope example_db 1 None) (completionRate st).
Proof.
  apply (proj2 (completion_rate_range decimal_key example_db)
           "acme" None 1 acme None).
  - apply slug_unique_example_db.
  - reflexivity.
  - reflexivity.
  - reflexivity.
Defined.

Lemma UpdateTask_overwrites_supplied_only_witness :
  ∃ db' T',
    UpdateTask_mutate decimal_key example_db "3" "acme"
      None None (Some "DONE") None None
    = (db', Return (3, T')) ∧
    tasks db' !! 3 = Some T' ∧
    title T' = "Test" ∧
    description T' = EmptyString ∧
    status T' = "DONE" ∧
    assignee_email T' = EmptyString ∧
    due_date T' = None ∧
    project_id T' = 1 ∧
    (∀ k, k ≠ 3 → tasks db' !! k = tasks example_db !! k) ∧
    organizations db' = organizations example_db ∧
    projects db' = projects example_db ∧
    comments db' = comments example_db.
Proof.
  apply (UpdateTask_overwrites_supplied_only decimal_key example_db "3" 3
           "acme" (example_task 1 "Test" "IN_PROGRESS")
           None None (Some "DONE") None None).
  - reflexivity.
  - reflexivity.
  - reflexivity.
Defined.

(** * Further properties of the queries *)

Lemma get_Return_inv {A} (m : model) (l : list A) (x : A) :
  get m l = Return x → l = [x].
Proof. destruct l as [|a [|b l]]; simpl; congruence. Qed.

Lemma get_filter_Return {A} (P : A → Prop) `{!∀ x, Decision (P x)}
    (m : model) (l : list A) (x : A) :
  get m (filter P l) = Return x → x ∈ l ∧ P x.
Proof.
  intros Hget%get_Return_inv.
  assert (x ∈ filter P l) as [? ?]%list_elem_of_filter; [|done].
  rewrite Hget. by left.
Qed.

Lemma get_Permutation {A} (m : model) (l l' : list A) :
  l ≡ₚ l' → get m l = get m l'.
Proof.
  intros Hp. destruct l as [|a [|b l]].
  - by apply Permutation_nil_l in Hp as <-.
  - by apply Permutation_singleton_l in Hp as <-.
  - pose proof (Permutation_length Hp) as Hlen.
    destruct l' as [|a' [|b' l']]; simpl in Hlen; try lia. done.
Qed.

Lemma try_except_Return {A} (body handler : result A) (cls : exn → bool)
    (a : A) :
  try_except body cls handler = Return a →
  body = Return a ∨ (∃ e, body = Raise e ∧ cls e = true ∧ handler = Return a).
Proof.
  destruct body as [b|e]; simpl; [by left|].
  destruct (cls e) eqn:He; [|done]. right. by exists e.
Qed.

Lemma count_filter_disjoint {A} (P Q : A → Prop)
    `{!∀ x, Decision (P x), !∀ x, Decision (Q x)} (l : list A) :
  (∀ x, P x → Q x → False) →
  0 ≤ count (filter P l) ∧ 0 ≤ count (filter Q l) ∧
  count (filter P l) + count (filter Q l) ≤ count l.
Proof.
  intros Hdisj. unfold count.
  pose proof (length_filter (λ x, P x ∨ Q x) l) as Hle.
  rewrite (filter_disjoint_or P Q l Hdisj), length_app in Hle. lia.
Qed.

(** X1: a project key is listed by [projects] for one organization slug at
    most, with one row, and no project is listed twice. *)
Theorem resolve_projects_one_tenant (db : DB) (s1 s2 : string) (k : Z)
    (p1 p2 : Project) :
  (k, p1) ∈ resolve_projects db s1 → (k, p2) ∈ resolve_projects db s2 →
  s1 = s2 ∧ p1 = p2 ∧ NoDup (resolve_projects db s1).
Proof.
  unfold resolve_projects. rewrite !list_elem_of_filter, !elem_of_objects.
  simpl. intros [Hs1 Hp1] [Hs2 Hp2].
  assert (p1 = p2) as -> by congruence.
  split; [congruence|]. split; [done|].
  apply NoDup_filter, NoDup_objects.
Qed.

Section Queries.

Variable get_prep_value : ID → option Z.
Hypothesis get_prep_value_empty : get_prep_value EmptyString = None.

(** X2: [tasks] and [projects] agree: a task is listed for a slug exactly
    when its project is listed by [projects] for that slug. *)
Theorem resolve_tasks_follow_projects (db : DB) (s : string) (k : Z)
    (T : Task) :
  appears (resolve_tasks get_prep_value db s None) (k, T) ↔
  tasks db !! k = Some T ∧ ∃ p, (project_id T, p) ∈ resolve_projects db s.
Proof.
  unfold appears, resolve_tasks, resolve_projects. split.
  - intros (l & [= <-] & [Hs Hin%elem_of_objects]%list_elem_of_filter).
    simpl in Hs. split; [done|].
    unfold project__organization__slug in Hs.
    destruct (projects db !! project_id T) as [p|] eqn:Hp; [|done].
    exists p. apply list_elem_of_filter. split; [done|].
    by apply elem_of_objects.
  - intros [HT (p & [Hs Hp%elem_of_objects]%list_elem_of_filter)].
    eexists; split; [reflexivity|]. apply list_elem_of_filter.
    split; [|by apply elem_of_objects]. simpl in *.
    unfold project__organization__slug. by rewrite Hp.
Qed.

(** X3: whatever the [projectId] argument, a list returned by [tasks]
    holds only tasks of the organization, holds none twice, and is a
    sublist of the list returned without [projectId]. *)
Theorem resolve_tasks_any_projectId (db : DB) (s : string)
    (projectId : option ID) (l : list (Z * Task)) :
  resolve_tasks get_prep_value db s projectId = Return l →
  NoDup l
  ∧ (∀ k T, (k, T) ∈ l →
            tasks db !! k = Some T ∧
            project__organization__slug db T = Some s)
  ∧ ∃ l0, resolve_tasks get_prep_value db s None = Return l0 ∧
          l `sublist_of` l0.
Proof.
  intros Hl. simpl.
  set (l0 := filter (λ t : Z * Task,
                project__organization__slug db t.2 = Some s)
               (objects (tasks db))).
  assert (l `sublist_of` l0) as Hsub.
  { unfold resolve_tasks in Hl. fold l0 in Hl.
    destruct projectId as [p|]; [|by injection Hl as <-].
    destruct (truthy (Some p)); [|by injection Hl as <-].
    destruct (prep get_prep_value p) as [n|e]; [|done].
    injection Hl as <-. apply sublist_filter. }
  assert (NoDup l0) as Hnd by apply NoDup_filter, NoDup_objects.
  split; [by apply (sublist_NoDup l l0)|]. split; [|by exists l0].
  intros k T Hin. apply (elem_of_sublist _ _ _ Hin) in Hsub.
  by apply list_elem_of_filter in Hsub as [? ?%elem_of_objects].
Qed.

(** X4: a list returned by [taskComments] holds only comments of the task
    that the id names, and that task lies within the organization. *)
Theorem resolve_taskComments_isolated (db : DB) (taskId : ID) (s : string)
    (l : list (Z * TaskComment)) (k : Z) (c : TaskComment) :
  resolve_taskComments get_prep_value db taskId s = Return l →
  (k, c) ∈ l →
  comments db !! k = Some c
  ∧ get_prep_value taskId = Some (task_id c)
  ∧ ∃ T, tasks db !! task_id c = Some T ∧
         project__organization__slug db T = Some s.
Proof.
  unfold resolve_taskComments, prep. intros Hl Hin.
  destruct (get_prep_value taskId) as [n|]; [|done].
  cbn [mbind result_bind] in Hl.
  destruct (get MTask _) as [[n' T]|e] eqn:Hget.
  - injection Hl as <-.
    apply get_filter_Return in Hget as [HT%elem_of_objects [Hn Hs]].
    apply list_elem_of_filter in Hin as [Hc Hk%elem_of_objects].
    simpl in *. subst n'. rewrite Hc. split; [done|]. split; [done|].
    by exists T.
  - simpl in Hl. destruct (is_DoesNotExist MTask e); [|done].
    injection Hl as <-. by apply elem_of_nil in Hin.
Qed.

(** X5: the counts of [projectStatistics] are the numbers of projects of
    the organization in scope, of their tasks, and of those tasks with
    status DONE and IN_PROGRESS. *)
Theorem projectStatistics_counts (db : DB) (s : string)
    (projectId : option ID) (i : Z) (O : Organization) (sel : option Z) :
  slug_unique db →
  organizations db !! i = Some O → slug O = s →
  selected get_prep_value projectId = Return sel →
  ∃ st,
    resolve_projectStatistics get_prep_value db s projectId
    = Return (Some st) ∧
    totalProjects st = Z.of_nat (size (projects_in_scope db i sel)) ∧
    totalTasks st = Z.of_nat (size (tasks_in_scope db i sel)) ∧
    completedTasks st
    = Z.of_nat (size (filter (λ t, status t.2 = "DONE")
                        (tasks_in_scope db i sel))) ∧
    activeTasks st
    = Z.of_nat (size (filter (λ t, status t.2 = "IN_PROGRESS")
                        (tasks_in_scope db i sel))).
Proof.
  intros Hu HO Hs Hsel.
  rewrite (resolve_projectStatistics_spec get_prep_value db s projectId
             i O sel Hu HO Hs Hsel).
  by eexists.
Qed.

(** X6: in every record that [projectStatistics] returns the counts are
    not negative, and the completed and the active tasks together are no
    more than the total. *)
Theorem projectStatistics_counts_consistent (db : DB) (s : string)
    (projectId : option ID) (st : ProjectStatisticsType) :
  resolve_projectStatistics get_prep_value db s projectId
  = Return (Some st) →
  0 ≤ totalProjects st ∧ 0 ≤ completedTasks st ∧ 0 ≤ activeTasks st ∧
  completedTasks st + activeTasks st ≤ totalTasks st.
Proof.
  unfold resolve_projectStatistics.
  intros [Hbody|(e & _ & _ & [=])]%try_except_Return.
  destruct (get MOrganization _) as [organization|e]; [|done].
  cbn [mbind result_bind] in Hbody.
  match type of Hbody with
  | context [match projectId with Some _ => _ | None => ?r end] =>
      destruct (match projectId with
                | Some p =>
                    if truthy projectId then
                      n ← prep get_prep_value p;
                      Return (filter (λ p, pk p = n)
                        (filter (λ p, organization_id p.2 = pk organization)
                           (objects (projects db))))
                    else r
                | None => r
                end) as [projects1|e]; [|done]
  end.
  cbn [mbind result_bind] in Hbody. rewrite !sum_ones in Hbody.
  set (all_tasks :=
    foldl (λ acc project, acc ++ related_tasks db project) [] projects1)
    in *.
  pose proof (count_filter_disjoint
    (λ t : Z * Task, status t.2 = "DONE")
    (λ t : Z * Task, status t.2 = "IN_PROGRESS") all_tasks) as Hcount.
  destruct (0 <? count all_tasks); [unfold truediv in Hbody;
    destruct (count all_tasks =? 0); [done|]|];
    injection Hbody as <-; simpl;
    (split; [unfold count; lia|]); apply Hcount; congruence.
Qed.

Lemma selected_key (p : ID) (n : Z) :
  get_prep_value p = Some n →
  selected get_prep_value (Some p) = Return (Some n).
Proof.
  intros Hp. unfold selected.
  rewrite (truthy_key get_prep_value get_prep_value_empty p n Hp).
  by rewrite (prep_Some get_prep_value p n Hp).
Qed.

Lemma task_set_rate_empty : task_set_rate ∅ = 0%Q.
Proof. unfold task_set_rate. by rewrite map_size_empty. Qed.

(** X7: narrowed to a project of another organization, [projectStatistics]
    counts nothing: no project, no task, rate 0.0. *)
Theorem projectStatistics_cross_tenant_zero (db : DB) (s : string) (p : ID)
    (n : Z) (pr : Project) (i : Z) (O : Organization) :
  slug_unique db →
  organizations db !! i = Some O → slug O = s →
  get_prep_value p = Some n →
  projects db !! n = Some pr → organization_id pr ≠ i →
  resolve_projectStatistics get_prep_value db s (Some p)
  = Return (Some {| totalProjects := 0; totalTasks := 0;
                    completedTasks := 0; activeTasks := 0;
                    completionRate := 0%Q |}).
Proof.
  intros Hu HO Hs Hp Hpr Hne.
  rewrite (resolve_projectStatistics_spec get_prep_value db s (Some p)
             i O (Some n) Hu HO Hs (selected_key p n Hp)).
  assert (projects_in_scope db i (Some n) = ∅) as ->.
  { apply map_empty_filter. intros k p' Hk [Ho Hsel]. simpl in *.
    unfold pk in Hsel. simpl in Hsel. subst k. congruence. }
  assert (tasks_in_scope db i (Some n) = ∅) as ->.
  { apply map_empty_filter. intros k t Hk [Ho Hsel]. simpl in *.
    rewrite Hsel, Hpr in Ho. simpl in Ho. congruence. }
  by rewrite !map_filter_empty, task_set_rate_empty, map_size_empty.
Qed.

(** X8: narrowed to one project of the organization, [projectStatistics]
    agrees with the derived fields of that project: one project, its
    [taskCount], its [completedTasks] and its [completionRate]. *)
Theorem projectStatistics_of_one_project (db : DB) (s : string) (p : ID)
    (k : Z) (pr : Project) (i : Z) (O : Organization) :
  slug_unique db →
  organizations db !! i = Some O → slug O = s →
  get_prep_value p = Some k →
  projects db !! k = Some pr → organization_id pr = i →
  ∃ st,
    resolve_projectStatistics get_prep_value db s (Some p)
    = Return (Some st) ∧
    totalProjects st = 1 ∧
    totalTasks st = resolve_taskCount db (k, pr) ∧
    completedTasks st = resolve_completedTasks db (k, pr) ∧
    resolve_completionRate db (k, pr) = Return (completionRate st).
Proof.
  intros Hu HO Hs Hp Hpr Hi.
  rewrite (resolve_projectStatistics_spec get_prep_value db s (Some p)
             i O (Some k) Hu HO Hs (selected_key p k Hp)).
  assert (projects_in_scope db i (Some k) = {[ k := pr ]}) as ->.
  { apply map_eq. intros j. apply option_eq. intros x.
    unfold projects_in_scope.
    rewrite map_lookup_filter_Some, lookup_singleton_Some. simpl.
    unfold pk. simpl. split.
    - intros [Hj [_ ->]]. split; congruence.
    - intros [<- <-]. done. }
  assert (tasks_in_scope db i (Some k) = tasks_of_project db k) as ->.
  { apply map_filter_ext. intros j t Hj. simpl. split; [tauto|].
    intros Hk. split; [|done]. by rewrite Hk, Hpr, <- Hi. }
  eexists; split; [reflexivity|]. cbn [totalProjects totalTasks
    completedTasks completionRate].
  rewrite map_size_singleton, resolve_completionRate_spec.
  unfold resolve_taskCount, resolve_completedTasks, related_tasks, pk.
  cbn [fst]. by rewrite count_filter, count_filter_filter.
Qed.

End Queries.

(** X9: the derived fields of a project agree with each other: the
    completed tasks are between 0 and the task count, and the rate is 0.0
    when no task is completed. *)
Theorem project_fields_consistent (db : DB) (self : Z * Project) :
  0 ≤ resolve_completedTasks db self ≤ resolve_taskCount db self
  ∧ (resolve_completedTasks db self = 0 →
     resolve_completionRate db self = Return 0%Q).
Proof.
  unfold resolve_completedTasks, resolve_taskCount, resolve_completionRate.
  split.
  - unfold count.
    pose proof (length_filter (λ t : Z * Task, status t.2 = "DONE")
                  (related_tasks db self)). lia.
  - intros ->. destruct (Z.eqb_spec (count (related_tasks db self)) 0)
      as [|Hne]; [done|].
    rewrite (truediv_nonzero _ _ Hne). cbn [mbind result_bind].
    rewrite (RN_proper _ 0); [by vm_compute|].
    unfold Qdiv. apply Qmult_0_l.
Qed.

(** * Further properties of the mutations *)

Lemma foldr_max_le (l : list Z) (k : Z) : k ∈ l → k ≤ foldr Z.max 0 l.
Proof.
  induction l as [|a l IH]; simpl; [by intros ?%elem_of_nil|].
  intros [->|Hk%IH]%elem_of_cons; lia.
Qed.

(** The key of a new row is not in use. *)
Lemma fresh_pk_fresh {A} (table : gmap Z A) : table !! fresh_pk table = None.
Proof.
  destruct (table !! fresh_pk table) as [x|] eqn:Hx; [|done].
  apply elem_of_objects in Hx.
  assert (fresh_pk table ∈ (objects table).*1) as Hin.
  { apply list_elem_of_fmap. by exists (fresh_pk table, x). }
  apply foldr_max_le in Hin. unfold fresh_pk in Hin at 1. lia.
Qed.

Lemma objects_insert_fresh {A} (table : gmap Z A) (k : Z) (x : A) :
  table !! k = None → objects (<[k := x]> table) ≡ₚ (k, x) :: objects table.
Proof. apply map_to_list_insert. Qed.

Lemma get_project_none (db : DB) (n : Z) (s : string) :
  (∀ pr, projects db !! n = Some pr → organization__slug db pr ≠ Some s) →
  get MProject
    (filter (λ p, pk p = n ∧ organization__slug db p.2 = Some s)
       (objects (projects db)))
  = Raise (DoesNotExist MProject).
Proof.
  intros Hno. apply get_filter_none.
  intros [k pr] Hin%elem_of_objects [Hk Hs]. simpl in *. subst k.
  by apply (Hno pr).
Qed.

Lemma get_project_found (db : DB) (n : Z) (s : string) (pr : Project) :
  projects db !! n = Some pr → organization__slug db pr = Some s →
  get MProject
    (filter (λ p, pk p = n ∧ organization__slug db p.2 = Some s)
       (objects (projects db)))
  = Return (n, pr).
Proof.
  intros Hpr Hs. apply get_filter_unique; [apply NoDup_objects| |done|].
  - by apply elem_of_objects.
  - intros y Hy [Hk _].
    apply (objects_pk_inj (projects db)); [done|by apply elem_of_objects|done].
Qed.

(** X10: after [createOrganization] with a slug that no organization has,
    [organization] finds the new row under a key that was free, slugs stay
    unique, and the lookup of every other slug is as before. *)
Theorem CreateOrganization_round_trip (db : DB)
    (name0 slug0 contactEmail : string) :
  slug_unique db →
  (∀ i o, organizations db !! i = Some o → slug o ≠ slug0) →
  ∃ db' k,
    CreateOrganization_mutate db name0 slug0 contactEmail
    = (db', Return (k, {| name := name0; slug := slug0;
                          contact_email := contactEmail |})) ∧
    organizations db !! k = None ∧
    resolve_organization db' slug0
    = Return (k, {| name := name0; slug := slug0;
                    contact_email := contactEmail |}) ∧
    slug_unique db' ∧
    (∀ s, s ≠ slug0 →
          resolve_organization db' s = resolve_organization db s) ∧
    projects db' = projects db ∧ tasks db' = tasks db ∧
    comments db' = comments db.
Proof.
  intros Hu Hfresh. unfold CreateOrganization_mutate.
  set (org := {| name := name0; slug := slug0;
                 contact_email := contactEmail |}).
  set (k := fresh_pk (organizations db)).
  pose proof (fresh_pk_fresh (organizations db)) as Hk. fold k in Hk.
  eexists _, k. split; [reflexivity|]. split; [done|].
  split; [|split; [|split; [|done]]].
  - unfold resolve_organization.
    rewrite (get_organization_unique _ slug0 k org); [done| |done|].
    + apply lookup_insert_eq.
    + cbn [organizations]. intros j o' Hj Hs.
      apply lookup_insert_Some in Hj as [[<- _]|[_ Hj]]; [done|].
      by destruct (Hfresh j o' Hj).
  - unfold slug_unique. cbn [organizations].
    rewrite (objects_insert_fresh _ k org Hk), fmap_cons.
    apply NoDup_cons. split; [|done]. simpl.
    intros ([j o] & Hs & Hin%elem_of_objects)%list_elem_of_fmap.
    simpl in Hs. by destruct (Hfresh j o Hin).
  - intros s Hs. unfold resolve_organization. f_equal.
    apply get_Permutation. cbn [organizations].
    rewrite (objects_insert_fresh _ k org Hk), filter_cons.
    by rewrite decide_False by (simpl; congruence).
Qed.

(** X11: [createProject] under an existing organization stores the new
    project under a key that was free, with the supplied attributes and the
    organization's key; [projects] then lists it for that slug, and every
    listing otherwise holds what it held. *)
Theorem CreateProject_round_trip (db : DB) (s name0 : string)
    (description0 status0 : string) (dueDate : option date) (i : Z)
    (O : Organization) :
  slug_unique db →
  organizations db !! i = Some O → slug O = s →
  ∃ db' k,
    CreateProject_mutate db s name0 description0 status0 dueDate
    = (db', Return (k, {| organization_id := i; project_name := name0;
                          project_description := description0;
                          project_status := status0;
                          project_due_date := dueDate |})) ∧
    projects db !! k = None ∧
    (∀ s' k' p',
       (k', p') ∈ resolve_projects db' s' ↔
       (k', p') ∈ resolve_projects db s' ∨
       (s' = s ∧ k' = k ∧
        p' = {| organization_id := i; project_name := name0;
                project_description := description0;
                project_status := status0;
                project_due_date := dueDate |})) ∧
    organizations db' = organizations db ∧ tasks db' = tasks db ∧
    comments db' = comments db.
Proof.
  intros Hu HO Hs. unfold CreateProject_mutate.
  rewrite (get_organization_unique db s i O HO Hs).
  2: { intros j O' HO' Hs'. apply (slug_unique_pk db j i O' O); congruence. }
  cbn [pk fst].
  set (project := {| organization_id := i; project_name := name0;
                     project_description := description0;
                     project_status := status0;
                     project_due_date := dueDate |}).
  set (k := fresh_pk (projects db)).
  pose proof (fresh_pk_fresh (projects db)) as Hk. fold k in Hk.
  eexists _, k. split; [reflexivity|]. split; [done|]. split; [|done].
  intros s' k' p'. unfold resolve_projects.
  rewrite !list_elem_of_filter, !elem_of_objects.
  cbn [projects snd]. unfold organization__slug at 1. cbn [organizations].
  fold (organization__slug db p'). rewrite lookup_insert_Some. split.
  - intros [Hs' [[<- <-]|[Hne Hp']]]; [|by left]. right.
    unfold organization__slug in Hs'. cbn [organization_id project] in Hs'.
    rewrite HO in Hs'. simpl in Hs'. split; [congruence|done].
  - intros [[Hs' Hp']|(-> & -> & ->)].
    + split; [done|]. right. split; [congruence|done].
    + split; [|by left]. unfold organization__slug.
      cbn [organization_id project]. rewrite HO. simpl. by rewrite Hs.
Qed.

Section Mutations.

Variable get_prep_value : ID → option Z.
Hypothesis get_prep_value_empty : get_prep_value EmptyString = None.

Lemma appears_resolve_tasks_None (db : DB) (s : string) (k : Z) (T : Task) :
  appears (resolve_tasks get_prep_value db s None) (k, T) ↔
  tasks db !! k = Some T ∧ project__organization__slug db T = Some s.
Proof.
  unfold appears, resolve_tasks. split.
  - intros (l & [= <-] & [Hs Hin%elem_of_objects]%list_elem_of_filter). done.
  - intros [HT Hs]. eexists; split; [reflexivity|].
    apply list_elem_of_filter. split; [done|]. by apply elem_of_objects.
Qed.

Lemma appears_resolve_tasks_Some (db : DB) (s : string) (p : ID) (n k : Z)
    (T : Task) :
  get_prep_value p = Some n →
  appears (resolve_tasks get_prep_value db s (Some p)) (k, T) ↔
  tasks db !! k = Some T ∧ project__organization__slug db T = Some s ∧
  project_id T = n.
Proof.
  intros Hp. unfold appears, resolve_tasks.
  rewrite (truthy_key get_prep_value get_prep_value_empty p n Hp),
    (prep_Some get_prep_value p n Hp).
  cbn [mbind result_bind]. split.
  - intros (l & [= <-] & Hin). revert Hin.
    rewrite !list_elem_of_filter, elem_of_objects. simpl. tauto.
  - intros (HT & Hs & Hn). eexists; split; [reflexivity|].
    rewrite !list_elem_of_filter, elem_of_objects. done.
Qed.

(** X12: [createTask] under a project of the organization stores the new
    task under a key that was free, for that project; [tasks] then lists it
    for that slug, also when narrowed to the project, every listing
    otherwise holds what it held, and the project's [taskCount] grows by
    one. *)
Theorem CreateTask_round_trip (db : DB) (projectId : ID) (n : Z)
    (s title0 : string) (description0 status0 assigneeEmail : string)
    (dueDate : option datetime) (pr : Project) :
  get_prep_value projectId = Some n →
  projects db !! n = Some pr →
  organization__slug db pr = Some s →
  ∃ db' k,
    CreateTask_mutate get_prep_value db projectId s title0
      description0 status0 assigneeEmail dueDate
    = (db', Return (k, {| project_id := n; title := title0;
                          description := description0; status := status0;
                          assignee_email := assigneeEmail;
                          due_date := dueDate |})) ∧
    tasks db !! k = None ∧
    appears (resolve_tasks get_prep_value db' s (Some projectId))
      (k, {| project_id := n; title := title0;
             description := description0; status := status0;
             assignee_email := assigneeEmail; due_date := dueDate |}) ∧
    (∀ s' k' T',
       appears (resolve_tasks get_prep_value db' s' None) (k', T') ↔
       appears (resolve_tasks get_prep_value db s' None) (k', T') ∨
       (s' = s ∧ k' = k ∧
        T' = {| project_id := n; title := title0;
                description := description0; status := status0;
                assignee_email := assigneeEmail; due_date := dueDate |})) ∧
    resolve_taskCount db' (n, pr) = resolve_taskCount db (n, pr) + 1 ∧
    organizations db' = organizations db ∧ projects db' = projects db ∧
    comments db' = comments db.
Proof.
  intros Hid Hpr Hs. unfold CreateTask_mutate.
  rewrite (prep_Some get_prep_value projectId n Hid).
  cbn [mbind result_bind].
  rewrite (get_project_found db n s pr Hpr Hs). cbn [pk fst].
  set (task := {| project_id := n; title := title0;
                  description := description0; status := status0;
                  assignee_email := assigneeEmail; due_date := dueDate |}).
  set (k := fresh_pk (tasks db)).
  pose proof (fresh_pk_fresh (tasks db)) as Hk. fold k in Hk.
  set (db' := {| organizations := organizations db; projects := projects db;
                 tasks := <[k := task]> (tasks db);
                 comments := comments db |}).
  assert (project__organization__slug db' task = Some s) as Hslug.
  { unfold project__organization__slug. cbn [projects db' project_id task].
    by rewrite Hpr. }
  exists db', k. split; [reflexivity|]. split; [done|].
  split; [|split; [|split; [|done]]].
  - apply (appears_resolve_tasks_Some db' s projectId n k task Hid).
    split; [apply lookup_insert_eq|done].
  - intros s' k' T'. rewrite !appears_resolve_tasks_None.
    cbn [tasks db']. rewrite lookup_insert_Some.
    change (project__organization__slug db' T')
      with (project__organization__slug db T').
    change (project__organization__slug db' task)
      with (project__organization__slug db task) in Hslug.
    split.
    + intros [[[<- <-]|[Hne HT']] Hs']; [|by left].
      right. split; [congruence|done].
    + intros [[HT' Hs']|(-> & -> & ->)].
      * split; [|done]. right. split; [congruence|done].
      * split; [by left|done].
  - unfold resolve_taskCount, related_tasks. rewrite !count_filter.
    cbn [tasks db' pk fst].
    rewrite map_filter_insert_True by done.
    rewrite map_size_insert_None; [lia|].
    apply map_lookup_filter_None. by left.
Qed.

(** X13: for an id that denotes a key, a mutation whose parent or target
    row does not lie within the organization raises its "not found"
    exception: [createTask] and [updateProject] for a project, [updateTask]
    and [createTaskComment] for a task.  For an id that denotes no key the
    four raise [ValueError].  In both cases every table is left as it
    was. *)
Theorem writes_rejected_outside_organization (db : DB) (id : ID)
    (s : string) :
  (∀ n, get_prep_value id = Some n →
     ((∀ pr, projects db !! n = Some pr →
             organization__slug db pr ≠ Some s) →
      (∀ title0 description0 status0 assigneeEmail dueDate,
         CreateTask_mutate get_prep_value db id s title0 description0
           status0 assigneeEmail dueDate
         = (db, Raise (Exception
                  "Project not found or does not belong to organization")))
      ∧ (∀ name0 description0 status0 dueDate,
           UpdateProject_mutate get_prep_value db id s name0 description0
             status0 dueDate
           = (db, Raise (Exception
                    "Project not found or does not belong to organization"))))
     ∧ ((∀ T, tasks db !! n = Some T →
              project__organization__slug db T ≠ Some s) →
        (∀ title0 description0 status0 assigneeEmail dueDate,
           UpdateTask_mutate get_prep_value db id s title0 description0
             status0 assigneeEmail dueDate
           = (db, Raise (Exception
                    "Task not found or does not belong to organization")))
        ∧ (∀ content0 authorEmail,
             CreateTaskComment_mutate get_prep_value db id s content0
               authorEmail
             = (db, Raise (Exception
                      "Task not found or does not belong to organization")))))
  ∧ (get_prep_value id = None →
     (∀ title0 description0 status0 assigneeEmail dueDate,
        CreateTask_mutate get_prep_value db id s title0 description0 status0
          assigneeEmail dueDate
        = (db, Raise ValueError))
     ∧ (∀ name0 description0 status0 dueDate,
          UpdateProject_mutate get_prep_value db id s name0 description0
            status0 dueDate
          = (db, Raise ValueError))
     ∧ (∀ title0 description0 status0 assigneeEmail dueDate,
          UpdateTask_mutate get_prep_value db id s title0 description0
            status0 assigneeEmail dueDate
          = (db, Raise ValueError))
     ∧ (∀ content0 authorEmail,
          CreateTaskComment_mutate get_prep_value db id s content0
            authorEmail
          = (db, Raise ValueError))).
Proof.
  split.
  - intros n Hid. split; intros Hno; split; intros;
      unfold CreateTask_mutate, UpdateProject_mutate, UpdateTask_mutate,
        CreateTaskComment_mutate;
      rewrite (prep_Some get_prep_value id n Hid); cbn [mbind result_bind].
    + by rewrite (get_project_none db n s Hno).
    + by rewrite (get_project_none db n s Hno).
    + by rewrite (get_task_none db n s Hno).
    + by rewrite (get_task_none db n s Hno).
  - intros Hid.
    unfold CreateTask_mutate, UpdateProject_mutate, UpdateTask_mutate,
      CreateTaskComment_mutate, prep.
    by rewrite Hid.
Qed.

Lemma DB_eta (db : DB) :
  {| organizations := organizations db; projects := projects db;
     tasks := tasks db; comments := comments db |} = db.
Proof. by destruct db. Qed.

(** X14: an update that supplies no field changes no table and returns the
    row as it is. *)
Theorem update_without_fields (db : DB) (id : ID) (n : Z) (s : string) :
  get_prep_value id = Some n →
  (∀ T, tasks db !! n = Some T →
        project__organization__slug db T = Some s →
        UpdateTask_mutate get_prep_value db id s None None None None None
        = (db, Return (n, T)))
  ∧ (∀ pr, projects db !! n = Some pr →
           organization__slug db pr = Some s →
           UpdateProject_mutate get_prep_value db id s None None None None
           = (db, Return (n, pr))).
Proof.
  intros Hid. split.
  - intros T HT Hs. unfold UpdateTask_mutate.
    rewrite (prep_Some get_prep_value id n Hid). cbn [mbind result_bind].
    rewrite (get_task_found db n s T HT Hs). cbn [pk fst snd].
    by rewrite (insert_id _ _ _ HT), DB_eta.
  - intros pr Hpr Hs. unfold UpdateProject_mutate.
    rewrite (prep_Some get_prep_value id n Hid). cbn [mbind result_bind].
    rewrite (get_project_found db n s pr Hpr Hs). cbn [pk fst snd].
    by rewrite (insert_id _ _ _ Hpr), DB_eta.
Qed.

(** The result of [updateTask] on a task of the organization. *)
Lemma UpdateTask_found (db : DB) (id : ID) (n : Z) (s : string) (T : Task)
    (title0 description0 status0 assigneeEmail : option string)
    (dueDate : option datetime) :
  get_prep_value id = Some n →
  tasks db !! n = Some T →
  project__organization__slug db T = Some s →
  UpdateTask_mutate get_prep_value db id s
    title0 description0 status0 assigneeEmail dueDate
  = ({| organizations := organizations db; projects := projects db;
        tasks := <[n := {| project_id := project_id T;
                           title := default (title T) title0;
                           description := default (description T) description0;
                           status := default (status T) status0;
                           assignee_email :=
                             default (assignee_email T) assigneeEmail;
                           due_date :=
                             from_option Some (due_date T) dueDate |}]>
                   (tasks db);
        comments := comments db |},
     Return (n, {| project_id := project_id T;
                   title := default (title T) title0;
                   description := default (description T) description0;
                   status := default (status T) status0;
                   assignee_email := default (assignee_email T) assigneeEmail;
                   due_date := from_option Some (due_date T) dueDate |})).
Proof.
  intros Hid HT Hs. unfold UpdateTask_mutate.
  rewrite (prep_Some get_prep_value id n Hid). cbn [mbind result_bind].
  rewrite (get_task_found db n s T HT Hs). cbn [pk fst snd].
  by destruct T, title0, description0, status0, assigneeEmail, dueDate.
Qed.

(** X15: [updateTask] is idempotent: the same update applied again changes
    no table and returns the same row. *)
Theorem UpdateTask_idempotent (db : DB) (id : ID) (n : Z) (s : string)
    (T : Task) (title0 description0 status0 assigneeEmail : option string)
    (dueDate : option datetime) :
  get_prep_value id = Some n →
  tasks db !! n = Some T →
  project__organization__slug db T = Some s →
  UpdateTask_mutate get_prep_value
    (UpdateTask_mutate get_prep_value db id s
       title0 description0 status0 assigneeEmail dueDate).1
    id s title0 description0 status0 assigneeEmail dueDate
  = UpdateTask_mutate get_prep_value db id s
      title0 description0 status0 assigneeEmail dueDate.
Proof.
  intros Hid HT Hs.
  rewrite (UpdateTask_found db id n s T _ _ _ _ _ Hid HT Hs). cbn [fst].
  erewrite UpdateTask_found; [|done|apply lookup_insert_eq|done].
  cbn [organizations projects tasks comments project_id title description
       status assignee_email due_date].
  rewrite insert_insert_eq.
  by destruct title0, description0, status0, assigneeEmail, dueDate.
Qed.

Lemma size_filter_insert_same {A} (P : Z * A → Prop)
    `{!∀ x, Decision (P x)} (m : gmap Z A) (n : Z) (x x' : A) :
  m !! n = Some x → (P (n, x') ↔ P (n, x)) →
  size (filter P (<[n := x']> m)) = size (filter P m).
Proof.
  intros Hn HP. destruct (decide (P (n, x'))) as [Hx'|Hx'].
  - rewrite map_filter_insert_True by done.
    apply map_size_insert_Some. exists x.
    apply map_lookup_filter_Some. tauto.
  - rewrite map_filter_insert_False, map_filter_delete by done.
    rewrite delete_id; [done|].
    apply map_lookup_filter_None. right. intros y Hy. simpl.
    assert (y = x) as -> by congruence. tauto.
Qed.

(** X16: [updateTask] moves no task: the keys that [tasks] lists for a
    slug are the same before and after the update, and so is the
    [taskCount] of every project. *)
Theorem UpdateTask_keeps_tenancy (db : DB) (id : ID) (n : Z) (s : string)
    (T : Task) (title0 description0 status0 assigneeEmail : option string)
    (dueDate : option datetime) :
  get_prep_value id = Some n →
  tasks db !! n = Some T →
  project__organization__slug db T = Some s →
  (∀ s' k,
     (∃ T', appears (resolve_tasks get_prep_value
                       (UpdateTask_mutate get_prep_value db id s title0
                          description0 status0 assigneeEmail dueDate).1
                       s' None) (k, T'))
     ↔ ∃ T0, appears (resolve_tasks get_prep_value db s' None) (k, T0))
  ∧ (∀ self,
       resolve_taskCount
         (UpdateTask_mutate get_prep_value db id s title0 description0
            status0 assigneeEmail dueDate).1 self
       = resolve_taskCount db self).
Proof.
  intros Hid HT Hs.
  rewrite (UpdateTask_found db id n s T _ _ _ _ _ Hid HT Hs). cbn [fst].
  set (T1 := {| project_id := project_id T;
                title := default (title T) title0;
                description := default (description T) description0;
                status := default (status T) status0;
                assignee_email := default (assignee_email T) assigneeEmail;
                due_date := from_option Some (due_date T) dueDate |}).
  set (db' := {| organizations := organizations db; projects := projects db;
                 tasks := <[n := T1]> (tasks db);
                 comments := comments db |}).
  split.
  - intros s' k. setoid_rewrite appears_resolve_tasks_None.
    cbn [tasks db']. setoid_rewrite lookup_insert_Some. split.
    + intros (T' & [[<- <-]|[Hne HT']] & Hs'); [by exists T|by exists T'].
    + intros (T0 & HT0 & Hs'). destruct (decide (n = k)) as [<-|Hne].
      * exists T1. split; [by left|].
        assert (T0 = T) as -> by congruence. done.
      * exists T0. split; [by right|done].
  - intros self. unfold resolve_taskCount, related_tasks.
    rewrite !count_filter. cbn [tasks db']. f_equal.
    by apply (size_filter_insert_same _ _ n T T1).
Qed.

(** The result of [updateProject] on a project of the organization. *)
Lemma UpdateProject_found (db : DB) (id : ID) (n : Z) (s : string)
    (pr : Project) (name0 description0 status0 : option string)
    (dueDate : option date) :
  get_prep_value id = Some n →
  projects db !! n = Some pr →
  organization__slug db pr = Some s →
  UpdateProject_mutate get_prep_value db id s
    name0 description0 status0 dueDate
  = ({| organizations := organizations db;
        projects :=
          <[n := {| organization_id := organization_id pr;
                    project_name := default (project_name pr) name0;
                    project_description :=
                      default (project_description pr) description0;
                    project_status := default (project_status pr) status0;
                    project_due_date :=
                      from_option Some (project_due_date pr) dueDate |}]>
            (projects db);
        tasks := tasks db; comments := comments db |},
     Return (n, {| organization_id := organization_id pr;
                   project_name := default (project_name pr) name0;
                   project_description :=
                     default (project_description pr) description0;
                   project_status := default (project_status pr) status0;
                   project_due_date :=
                     from_option Some (project_due_date pr) dueDate |})).
Proof.
  intros Hid Hpr Hs. unfold UpdateProject_mutate.
  rewrite (prep_Some get_prep_value id n Hid). cbn [mbind result_bind].
  rewrite (get_project_found db n s pr Hpr Hs). cbn [pk fst snd].
  by destruct pr, name0, description0, status0, dueDate.
Qed.

(** X17: [updateProject] on a project of the organization overwrites the
    attributes that are supplied and keeps the others and the
    organization; the project stays listed for the slug, no other project
    changes, and [tasks] returns for every slug and project id what it
    returned before. *)
Theorem UpdateProject_overwrites_supplied_only (db : DB) (id : ID) (n : Z)
    (s : string) (pr : Project) (name0 description0 status0 : option string)
    (dueDate : option date) :
  get_prep_value id = Some n →
  projects db !! n = Some pr →
  organization__slug db pr = Some s →
  ∃ db' pr',
    UpdateProject_mutate get_prep_value db id s
      name0 description0 status0 dueDate
    = (db', Return (n, pr')) ∧
    projects db' !! n = Some pr' ∧
    project_name pr' = default (project_name pr) name0 ∧
    project_description pr'
    = default (project_description pr) description0 ∧
    project_status pr' = default (project_status pr) status0 ∧
    project_due_date pr' = from_option Some (project_due_date pr) dueDate ∧
    organization_id pr' = organization_id pr ∧
    (∀ k, k ≠ n → projects db' !! k = projects db !! k) ∧
    (n, pr') ∈ resolve_projects db' s ∧
    (∀ s' projectId,
       resolve_tasks get_prep_value db' s' projectId
       = resolve_tasks get_prep_value db s' projectId) ∧
    organizations db' = organizations db ∧ tasks db' = tasks db ∧
    comments db' = comments db.
Proof.
  intros Hid Hpr Hs.
  rewrite (UpdateProject_found db id n s pr _ _ _ _ Hid Hpr Hs).
  eexists _, _. split; [reflexivity|].
  cbn [organizations projects tasks comments organization_id project_name
       project_description project_status project_due_date].
  split; [apply lookup_insert_eq|]. do 5 (split; [done|]).
  split; [by intros k Hk; apply lookup_insert_ne|].
  split; [|split; [|done]].
  - unfold resolve_projects. apply list_elem_of_filter.
    split; [done|]. apply elem_of_objects. apply lookup_insert_eq.
  - intros s' projectId. unfold resolve_tasks. cbn [tasks].
    match goal with
    | |- context [filter ?P (objects (tasks db))] =>
        replace (filter P (objects (tasks db)))
          with (filter (λ t : Z * Task,
                  project__organization__slug db t.2 = Some s')
                  (objects (tasks db))); [done|]
    end.
    apply list_filter_iff. intros [k t]. simpl.
    unfold project__organization__slug. cbn [projects].
    destruct (decide (n = project_id t)) as [<-|Hne].
    + by rewrite lookup_insert_eq, Hpr.
    + by rewrite lookup_insert_ne.
Qed.

Lemma resolve_taskComments_found (db : DB) (taskId : ID) (n : Z) (s : string)
    (T : Task) :
  get_prep_value taskId = Some n →
  tasks db !! n = Some T →
  project__organization__slug db T = Some s →
  resolve_taskComments get_prep_value db taskId s
  = Return (filter (λ c, task_id c.2 = n) (objects (comments db))).
Proof.
  intros Hid HT Hs. unfold resolve_taskComments.
  rewrite (prep_Some get_prep_value taskId n Hid). cbn [mbind result_bind].
  by rewrite (get_task_found db n s T HT Hs).
Qed.

(** X18: [createTaskComment] on a task of the organization stores the
    comment under a key that was free; [taskComments] for that task then
    lists the comments it listed before and the new one. *)
Theorem CreateTaskComment_round_trip (db : DB) (taskId : ID) (n : Z)
    (s content0 authorEmail : string) (T : Task) :
  get_prep_value taskId = Some n →
  tasks db !! n = Some T →
  project__organization__slug db T = Some s →
  ∃ db' k,
    CreateTaskComment_mutate get_prep_value db taskId s content0 authorEmail
    = (db', Return (k, {| task_id := n; content := content0;
                          author_email := authorEmail |})) ∧
    comments db !! k = None ∧
    (∀ k' c',
       appears (resolve_taskComments get_prep_value db' taskId s) (k', c') ↔
       appears (resolve_taskComments get_prep_value db taskId s) (k', c') ∨
       (k' = k ∧ c' = {| task_id := n; content := content0;
                         author_email := authorEmail |})) ∧
    organizations db' = organizations db ∧ projects db' = projects db ∧
    tasks db' = tasks db.
Proof.
  intros Hid HT Hs. unfold CreateTaskComment_mutate.
  rewrite (prep_Some get_prep_value taskId n Hid). cbn [mbind result_bind].
  rewrite (get_task_found db n s T HT Hs). cbn [pk fst].
  set (comment := {| task_id := n; content := content0;
                     author_email := authorEmail |}).
  set (k := fresh_pk (comments db)).
  pose proof (fresh_pk_fresh (comments db)) as Hk. fold k in Hk.
  eexists _, k. split; [reflexivity|]. split; [done|]. split; [|done].
  intros k' c'.
  rewrite (resolve_taskComments_found db taskId n s T Hid HT Hs).
  erewrite resolve_taskComments_found; [|done|done|done].
  unfold appears. cbn [comments]. split.
  - intros (l & [= <-] & [Hc Hin%elem_of_objects]%list_elem_of_filter).
    apply lookup_insert_Some in Hin as [[<- <-]|[Hne Hin]]; [by right|].
    left. eexists; split; [reflexivity|]. apply list_elem_of_filter.
    split; [done|]. by apply elem_of_objects.
  - intros [(l & [= <-] & [Hc Hin%elem_of_objects]%list_elem_of_filter)
           |[-> ->]];
      (eexists; split; [reflexivity|]); apply list_elem_of_filter.
    + split; [done|]. apply elem_of_objects, lookup_insert_Some.
      right. split; [congruence|done].
    + split; [done|]. apply elem_of_objects, lookup_insert_eq.
Qed.

Lemma size_filter_insert_new {A} (P : Z * A → Prop)
    `{!∀ x, Decision (P x)} (m : gmap Z A) (n : Z) (x x' : A) :
  m !! n = Some x → ¬ P (n, x) → P (n, x') →
  size (filter P (<[n := x']> m)) = S (size (filter P m)).
Proof.
  intros Hn Hx Hx'. rewrite map_filter_insert_True by done.
  apply map_size_insert_None, map_lookup_filter_None. right.
  intros y Hy. by assert (y = x) as -> by congruence.
Qed.

(** X19: [updateTask] that sets the status DONE on a task that is not DONE
    raises the [completedTasks] of the task's project by one and leaves
    its [taskCount] as it was. *)
Theorem UpdateTask_done_counts (db : DB) (id : ID) (n : Z) (s : string)
    (T : Task) (pr : Project)
    (title0 description0 assigneeEmail : option string)
    (dueDate : option datetime) :
  get_prep_value id = Some n →
  tasks db !! n = Some T →
  project__organization__slug db T = Some s →
  status T ≠ "DONE" →
  resolve_completedTasks
    (UpdateTask_mutate get_prep_value db id s title0 description0
       (Some "DONE") assigneeEmail dueDate).1 (project_id T, pr)
  = resolve_completedTasks db (project_id T, pr) + 1
  ∧ resolve_taskCount
      (UpdateTask_mutate get_prep_value db id s title0 description0
         (Some "DONE") assigneeEmail dueDate).1 (project_id T, pr)
    = resolve_taskCount db (project_id T, pr).
Proof.
  intros Hid HT Hs Hst.
  rewrite (UpdateTask_found db id n s T _ _ _ _ _ Hid HT Hs). cbn [fst].
  unfold resolve_completedTasks, resolve_taskCount, related_tasks.
  rewrite !list_filter_filter, !count_filter. cbn [tasks pk fst]. split.
  - erewrite size_filter_insert_new; [lia|done|simpl; tauto|done].
  - f_equal. by apply (size_filter_insert_same _ _ n T).
Qed.

Lemma is_Some_insert {A} (m : gmap Z A) (k j : Z) (x : A) :
  is_Some (m !! j) → is_Some (<[k := x]> m !! j).
Proof.
  intros Hj. destruct (decide (k = j)) as [->|Hne].
  - rewrite lookup_insert_eq. by eexists.
  - by rewrite lookup_insert_ne.
Qed.

Lemma integrity_insert_organization (db : DB) (k : Z) (o : Organization) :
  referential_integrity db →
  referential_integrity
    {| organizations := <[k := o]> (organizations db);
       projects := projects db; tasks := tasks db;
       comments := comments db |}.
Proof.
  intros (Hp & Ht & Hc). split; [|done]. cbn [organizations projects].
  intros j p Hj. apply is_Some_insert. by apply (Hp j).
Qed.

Lemma integrity_insert_project (db : DB) (k : Z) (p : Project) :
  referential_integrity db →
  is_Some (organizations db !! organization_id p) →
  referential_integrity
    {| organizations := organizations db;
       projects := <[k := p]> (projects db); tasks := tasks db;
       comments := comments db |}.
Proof.
  intros (Hp & Ht & Hc) Ho. split; [|split; [|done]];
    cbn [organizations projects tasks].
  - intros j p' [[<- <-]|[_ Hj]]%lookup_insert_Some; [done|].
    by apply (Hp j).
  - intros j t Hj. apply is_Some_insert. by apply (Ht j).
Qed.

Lemma integrity_insert_task (db : DB) (k : Z) (t : Task) :
  referential_integrity db →
  is_Some (projects db !! project_id t) →
  referential_integrity
    {| organizations := organizations db; projects := projects db;
       tasks := <[k := t]> (tasks db); comments := comments db |}.
Proof.
  intros (Hp & Ht & Hc) Ho. split; [done|split];
    cbn [projects tasks comments].
  - intros j t' [[<- <-]|[_ Hj]]%lookup_insert_Some; [done|].
    by apply (Ht j).
  - intros j c Hj. apply is_Some_insert. by apply (Hc j).
Qed.

Lemma integrity_insert_comment (db : DB) (k : Z) (c : TaskComment) :
  referential_integrity db →
  is_Some (tasks db !! task_id c) →
  referential_integrity
    {| organizations := organizations db; projects := projects db;
       tasks := tasks db; comments := <[k := c]> (comments db) |}.
Proof.
  intros (Hp & Ht & Hc) Ho. split; [done|split; [done|]].
  cbn [tasks comments].
  intros j c' [[<- <-]|[_ Hj]]%lookup_insert_Some; [done|].
  by apply (Hc j).
Qed.

(** X20: every mutation keeps the foreign keys valid: if every project
    names an organization, every task a project and every comment a task
    before the call, the same holds after it, whether it stores a row or
    raises. *)
Theorem mutations_keep_referential_integrity (db : DB) :
  referential_integrity db →
  (∀ name0 slug0 contactEmail,
     referential_integrity
       (CreateOrganization_mutate db name0 slug0 contactEmail).1)
  ∧ (∀ s name0 description0 status0 dueDate,
       referential_integrity
         (CreateProject_mutate db s name0 description0 status0 dueDate).1)
  ∧ (∀ projectId s title0 description0 status0 assigneeEmail dueDate,
       referential_integrity
         (CreateTask_mutate get_prep_value db projectId s title0
            description0 status0 assigneeEmail dueDate).1)
  ∧ (∀ id s name0 description0 status0 dueDate,
       referential_integrity
         (UpdateProject_mutate get_prep_value db id s name0 description0
            status0 dueDate).1)
  ∧ (∀ id s title0 description0 status0 assigneeEmail dueDate,
       referential_integrity
         (UpdateTask_mutate get_prep_value db id s title0 description0
            status0 assigneeEmail dueDate).1)
  ∧ (∀ taskId s content0 authorEmail,
       referential_integrity
         (CreateTaskComment_mutate get_prep_value db taskId s content0
            authorEmail).1).
Proof.
  intros Hdb. split; [|split; [|split; [|split; [|split]]]]; intros.
  - by apply integrity_insert_organization.
  - unfold CreateProject_mutate.
    destruct (get MOrganization _) as [[i o]|e] eqn:Hget; [|done].
    apply get_filter_Return in Hget as [Hin%elem_of_objects _].
    apply integrity_insert_project; [done|]. by exists o.
  - unfold CreateTask_mutate, prep.
    destruct (get_prep_value projectId) as [n|]; [|done].
    cbn [mbind result_bind].
    destruct (get MProject _) as [[i p]|e] eqn:Hget; [|done].
    apply get_filter_Return in Hget as [Hin%elem_of_objects _].
    apply integrity_insert_task; [done|]. by exists p.
  - unfold UpdateProject_mutate, prep.
    destruct (get_prep_value id) as [n|]; [|done].
    cbn [mbind result_bind].
    destruct (get MProject _) as [[i p]|e] eqn:Hget; [|done].
    apply get_filter_Return in Hget as [Hin%elem_of_objects _].
    apply integrity_insert_project; [done|].
    destruct Hdb as (Hp & _). cbn [snd].
    by destruct name0, description0, status0, dueDate; simpl;
      apply (Hp i p Hin).
  - unfold UpdateTask_mutate, prep.
    destruct (get_prep_value id) as [n|]; [|done].
    cbn [mbind result_bind].
    destruct (get MTask _) as [[i t]|e] eqn:Hget; [|done].
    apply get_filter_Return in Hget as [Hin%elem_of_objects _].
    apply integrity_insert_task; [done|].
    destruct Hdb as (_ & Ht & _). cbn [snd].
    by destruct title0, description0, status0, assigneeEmail, dueDate;
      simpl; apply (Ht i t Hin).
  - unfold CreateTaskComment_mutate, prep.
    destruct (get_prep_value taskId) as [n|]; [|done].
    cbn [mbind result_bind].
    destruct (get MTask _) as [[i t]|e] eqn:Hget; [|done].
    apply get_filter_Return in Hget as [Hin%elem_of_objects _].
    apply integrity_insert_comment; [done|]. by exists t.
Qed.

End Mutations.

(** * Queries against each other *)

Lemma get_two {A} (m : model) (l : list A) (x y : A) :
  x ∈ l → y ∈ l → x ≠ y → get m l = Raise (MultipleObjectsReturned m).
Proof.
  intros Hx Hy Hne. destruct l as [|a [|b l]]; [|exfalso|done].
  - by apply elem_of_nil in Hx.
  - apply list_elem_of_singleton in Hx, Hy. congruence.
Qed.

Section Composition.

Variable get_prep_value : ID → option Z.
Hypothesis get_prep_value_empty : get_prep_value EmptyString = None.

(** X21: the totals of [projectStatistics] for a slug are the lengths of
    the lists that [projects] and [tasks] return for that slug. *)
Theorem projectStatistics_totals_are_listing_lengths (db : DB) (s : string)
    (i : Z) (O : Organization) :
  slug_unique db →
  organizations db !! i = Some O → slug O = s →
  ∃ st l,
    resolve_projectStatistics get_prep_value db s None = Return (Some st) ∧
    resolve_tasks get_prep_value db s None = Return l ∧
    totalProjects st = count (resolve_projects db s) ∧
    totalTasks st = count l.
Proof.
  intros Hu HO Hs.
  rewrite (resolve_projectStatistics_spec get_prep_value db s None
             i O None Hu HO Hs eq_refl).
  eexists _, _. split; [reflexivity|]. split; [reflexivity|].
  cbn [totalProjects totalTasks]. unfold resolve_projects.
  rewrite !count_filter. split; f_equal; f_equal; apply map_filter_ext.
  - intros k p Hk. simpl. rewrite organization__slug_Some. split.
    + intros [-> _]. by exists O.
    + intros (o & Ho & Hso). split; [|done].
      apply (slug_unique_pk db _ _ o O); [done|done|done|congruence].
  - intros k t Hk. simpl. unfold project__organization__slug.
    destruct (projects db !! project_id t) as [p|]; simpl; [|split].
    + rewrite organization__slug_Some. split.
      * intros [[= <-] _]. by exists O.
      * intros (o & Ho & Hso). split; [|done]. f_equal.
        apply (slug_unique_pk db _ _ o O); [done|done|done|congruence].
    + by intros [? _].
    + done.
Qed.

(** X22: for a project of the organization, the [taskCount] field is the
    length of the list that [tasks] returns when narrowed to the project,
    and every task of that list is a task of the project. *)
Theorem taskCount_is_narrowed_listing_length (db : DB) (s : string) (p : ID)
    (k : Z) (pr : Project) :
  get_prep_value p = Some k →
  projects db !! k = Some pr →
  organization__slug db pr = Some s →
  ∃ l, resolve_tasks get_prep_value db s (Some p) = Return l ∧
       resolve_taskCount db (k, pr) = count l ∧
       ∀ t, t ∈ l → t ∈ related_tasks db (k, pr).
Proof.
  intros Hp Hpr Hs. unfold resolve_tasks.
  rewrite (truthy_key get_prep_value get_prep_value_empty p k Hp),
    (prep_Some get_prep_value p k Hp).
  cbn [mbind result_bind]. eexists; split; [reflexivity|].
  unfold resolve_taskCount, related_tasks, pk. cbn [fst].
  rewrite list_filter_filter.
  assert (filter (λ t : Z * Task, project_id t.2 = k) (objects (tasks db))
          = filter (λ t : Z * Task,
              project_id t.2 = k ∧
              project__organization__slug db t.2 = Some s)
              (objects (tasks db))) as ->; [|done].
  apply list_filter_iff. intros [j t]. simpl. split; [|tauto].
  intros Hk. split; [done|].
  unfold project__organization__slug. by rewrite Hk, Hpr.
Qed.

(** X23: when two organizations have the slug, no operation picks one:
    [organization], [projectStatistics] and [createProject] raise
    [MultipleObjectsReturned], which no handler catches, and
    [createProject] stores nothing. *)
Theorem duplicate_slug_raises (db : DB) (s : string) (i j : Z)
    (o1 o2 : Organization) :
  i ≠ j →
  organizations db !! i = Some o1 → slug o1 = s →
  organizations db !! j = Some o2 → slug o2 = s →
  resolve_organization db s = Raise (MultipleObjectsReturned MOrganization)
  ∧ (∀ projectId,
       resolve_projectStatistics get_prep_value db s projectId
       = Raise (MultipleObjectsReturned MOrganization))
  ∧ (∀ name0 description0 status0 dueDate,
       CreateProject_mutate db s name0 description0 status0 dueDate
       = (db, Raise (MultipleObjectsReturned MOrganization))).
Proof.
  intros Hne H1 Hs1 H2 Hs2.
  assert (get MOrganization
            (filter (λ o, slug o.2 = s) (objects (organizations db)))
          = Raise (MultipleObjectsReturned MOrganization)) as Hget.
  { apply (get_two _ _ (i, o1) (j, o2)); [| |congruence];
      apply list_elem_of_filter; (split; [done|]); by apply elem_of_objects. }
  unfold resolve_organization, resolve_projectStatistics,
    CreateProject_mutate. by rewrite Hget.
Qed.

End Composition.

(** * Instances of the further properties on the example tables *)

Lemma referential_integrity_Forall (db : DB) :
  Forall (λ p, is_Some (organizations db !! organization_id p.2))
    (objects (projects db)) →
  Forall (λ t, is_Some (projects db !! project_id t.2))
    (objects (tasks db)) →
  Forall (λ c, is_Some (tasks db !! task_id c.2)) (objects (comments db)) →
  referential_integrity db.
Proof.
  intros Hp Ht Hc. split; [|split].
  - intros k p Hk%elem_of_objects.
    by apply (proj1 (Forall_forall _ _) Hp (k, p)).
  - intros k t Hk%elem_of_objects.
    by apply (proj1 (Forall_forall _ _) Ht (k, t)).
  - intros k c Hk%elem_of_objects.
    by apply (proj1 (Forall_forall _ _) Hc (k, c)).
Qed.

Lemma referential_integrity_example_db : referential_integrity example_db.
Proof.
  apply referential_integrity_Forall;
    apply (bool_decide_unpack _); by vm_compute.
Qed.

Lemma launch_listed : (1, launch) ∈ resolve_projects example_db "acme".
Proof.
  apply list_elem_of_filter. split; [by vm_compute|].
  by apply elem_of_objects.
Qed.

Lemma resolve_projects_one_tenant_witness :
  "acme" = "acme" ∧ launch = launch ∧
  NoDup (resolve_projects example_db "acme").
Proof.
  apply (resolve_projects_one_tenant example_db "acme" "acme" 1 launch launch).
  - apply launch_listed.
  - apply launch_listed.
Defined.

Lemma resolve_tasks_any_projectId_witness :
  ∃ l0, resolve_tasks decimal_key example_db "acme" None = Return l0 ∧
        filter (λ t : Z * Task, project_id t.2 = 1)
          (filter (λ t : Z * Task,
             project__organization__slug example_db t.2 = Some "acme")
             (objects (tasks example_db)))
        `sublist_of` l0.
Proof.
  apply (resolve_tasks_any_projectId decimal_key example_db "acme"
           (Some "1")).
  reflexivity.
Defined.

Lemma resolve_taskComments_isolated_witness :
  comments example_db !! 1 = Some example_comment
  ∧ decimal_key "1" = Some (task_id example_comment)
  ∧ ∃ T, tasks example_db !! task_id example_comment = Some T ∧
         project__organization__slug example_db T = Some "acme".
Proof.
  apply (resolve_taskComments_isolated decimal_key example_db "1" "acme"
           (filter (λ c : Z * TaskComment, task_id c.2 = 1)
              (objects (comments example_db)))).
  - reflexivity.
  - apply list_elem_of_filter. split; [done|]. by apply elem_of_objects.
Defined.

Lemma projectStatistics_counts_witness :
  ∃ st,
    resolve_projectStatistics decimal_key example_db "acme" None
    = Return (Some st) ∧
    totalProjects st = Z.of_nat (size (projects_in_scope example_db 1 None)) ∧
    totalTasks st = Z.of_nat (size (tasks_in_scope example_db 1 None)) ∧
    completedTasks st
    = Z.of_nat (size (filter (λ t, status t.2 = "DONE")
                        (tasks_in_scope example_db 1 None))) ∧
    activeTasks st
    = Z.of_nat (size (filter (λ t, status t.2 = "IN_PROGRESS")
                        (tasks_in_scope example_db 1 None))).
Proof.
  apply (projectStatistics_counts decimal_key example_db "acme" None 1 acme
           None).
  - apply slug_unique_example_db.
  - reflexivity.
  - reflexivity.
  - reflexivity.
Defined.

Lemma projectStatistics_counts_consistent_witness :
  let st := {| totalProjects := 1; totalTasks := 4; completedTasks := 2;
               activeTasks := 1; completionRate := 50%Q |} in
  0 ≤ totalProjects st ∧ 0 ≤ completedTasks st ∧ 0 ≤ activeTasks st ∧
  completedTasks st + activeTasks st ≤ totalTasks st.
Proof.
  apply (projectStatistics_counts_consistent decimal_key example_db "acme"
           None {| totalProjects := 1; totalTasks := 4;
                   completedTasks := 2; activeTasks := 1;
                   completionRate := 50%Q |}).
  by vm_compute.
Defined.

Lemma projectStatistics_cross_tenant_zero_witness :
  resolve_projectStatistics decimal_key example_db "acme" (Some "2")
  = Return (Some {| totalProjects := 0; totalTasks := 0;
                    completedTasks := 0; activeTasks := 0;
                    completionRate := 0%Q |}).
Proof.
  apply (projectStatistics_cross_tenant_zero decimal_key eq_refl example_db
           "acme" "2" 2 relocation 1 acme).
  - apply slug_unique_example_db.
  - reflexivity.
  - reflexivity.
  - reflexivity.
  - reflexivity.
  - discriminate.
Defined.

Lemma projectStatistics_of_one_project_witness :
  ∃ st,
    resolve_projectStatistics decimal_key example_db "acme" (Some "1")
    = Return (Some st) ∧
    totalProjects st = 1 ∧
    totalTasks st = resolve_taskCount example_db (1, launch) ∧
    completedTasks st = resolve_completedTasks example_db (1, launch) ∧
    resolve_completionRate example_db (1, launch)
    = Return (completionRate st).
Proof.
  apply (projectStatistics_of_one_project decimal_key eq_refl example_db
           "acme" "1" 1 launch 1 acme).
  - apply slug_unique_example_db.
  - reflexivity.
  - reflexivity.
  - reflexivity.
  - reflexivity.
  - reflexivity.
Defined.

Lemma no_initech :
  ∀ i o, organizations example_db !! i = Some o → slug o ≠ "initech".
Proof. apply no_slug_Forall. apply (bool_decide_unpack _). by vm_compute. Qed.

Lemma CreateOrganization_round_trip_witness :
  ∃ db' k,
    CreateOrganization_mutate example_db "Initech" "initech" "hr@initech.test"
    = (db', Return (k, {| name := "Initech"; slug := "initech";
                          contact_email := "hr@initech.test" |})) ∧
    resolve_organization db' "initech"
    = Return (k, {| name := "Initech"; slug := "initech";
                    contact_email := "hr@initech.test" |}) ∧
    slug_unique db'.
Proof.
  destruct (CreateOrganization_round_trip example_db
              "Initech" "initech" "hr@initech.test"
              slug_unique_example_db no_initech)
    as (db' & k & Hr & _ & Hfind & Hu & _).
  by exists db', k.
Defined.

Lemma CreateProject_round_trip_witness :
  ∃ db' k,
    CreateProject_mutate example_db "acme" "Survey"
      CreateProject_default_description CreateProject_default_status None
    = (db', Return (k, {| organization_id := 1; project_name := "Survey";
                          project_description :=
                            CreateProject_default_description;
                          project_status := CreateProject_default_status;
                          project_due_date := None |})) ∧
    projects example_db !! k = None ∧
    (1, launch) ∈ resolve_projects db' "acme".
Proof.
  destruct (CreateProject_round_trip example_db "acme" "Survey"
              CreateProject_default_description CreateProject_default_status
              None 1 acme slug_unique_example_db eq_refl eq_refl)
    as (db' & k & Hr & Hk & Hlist & _).
  exists db', k. split; [done|]. split; [done|].
  apply Hlist. left. apply launch_listed.
Defined.

Lemma CreateTask_round_trip_witness :
  ∃ db' k,
    CreateTask_mutate decimal_key example_db "1" "acme" "Review"
      CreateTask_default_description CreateTask_default_status
      CreateTask_default_assigneeEmail None
    = (db', Return (k, example_task 1 "Review" "TODO")) ∧
    tasks example_db !! k = None ∧
    appears (resolve_tasks decimal_key db' "acme" (Some "1"))
      (k, example_task 1 "Review" "TODO") ∧
    resolve_taskCount db' (1, launch)
    = resolve_taskCount example_db (1, launch) + 1.
Proof.
  destruct (CreateTask_round_trip decimal_key eq_refl example_db "1" 1
              "acme" "Review" CreateTask_default_description
              CreateTask_default_status CreateTask_default_assigneeEmail
              None launch eq_refl eq_refl eq_refl)
    as (db' & k & Hr & Hk & Hin & _ & Hcount & _).
  by exists db', k.
Defined.

Lemma writes_rejected_outside_organization_witness :
  CreateTask_mutate decimal_key example_db "2" "acme" "Review"
    CreateTask_default_description CreateTask_default_status
    CreateTask_default_assigneeEmail None
  = (example_db,
     Raise (Exception "Project not found or does not belong to organization"))
  ∧ UpdateTask_mutate decimal_key example_db "5" "acme"
      None None (Some "DONE") None None
    = (example_db,
       Raise (Exception "Task not found or does not belong to organization"))
  ∧ UpdateTask_mutate decimal_key example_db "abc" "acme"
      None None (Some "DONE") None None
    = (example_db, Raise ValueError).
Proof.
  split; [|split].
  - apply (proj1 (proj1 (writes_rejected_outside_organization decimal_key
                           example_db "2" "acme") 2 eq_refl)).
    intros pr Hpr. vm_compute in Hpr. injection Hpr as <-. by vm_compute.
  - apply (proj2 (proj1 (writes_rejected_outside_organization decimal_key
                           example_db "5" "acme") 5 eq_refl)).
    intros T HT. vm_compute in HT. injection HT as <-. by vm_compute.
  - apply (proj2 (writes_rejected_outside_organization decimal_key
                    example_db "abc" "acme") eq_refl).
Defined.

Lemma update_without_fields_witness :
  UpdateTask_mutate decimal_key example_db "1" "acme"
    None None None None None
  = (example_db, Return (1, example_task 1 "Design" "DONE"))
  ∧ UpdateProject_mutate decimal_key example_db "1" "acme"
      None None None None
    = (example_db, Return (1, launch)).
Proof.
  split.
  - apply (proj1 (update_without_fields decimal_key example_db "1" 1 "acme"
                    eq_refl)); reflexivity.
  - apply (proj2 (update_without_fields decimal_key example_db "1" 1 "acme"
                    eq_refl)); reflexivity.
Defined.

Lemma UpdateTask_idempotent_witness :
  UpdateTask_mutate decimal_key
    (UpdateTask_mutate decimal_key example_db "3" "acme"
       None None (Some "DONE") None None).1
    "3" "acme" None None (Some "DONE") None None
  = UpdateTask_mutate decimal_key example_db "3" "acme"
      None None (Some "DONE") None None.
Proof.
  apply (UpdateTask_idempotent decimal_key example_db "3" 3 "acme"
           (example_task 1 "Test" "IN_PROGRESS")); reflexivity.
Defined.

Lemma UpdateTask_keeps_tenancy_witness :
  resolve_taskCount
    (UpdateTask_mutate decimal_key example_db "3" "acme"
       None None (Some "DONE") None None).1 (1, launch)
  = resolve_taskCount example_db (1, launch).
Proof.
  apply (proj2 (UpdateTask_keeps_tenancy decimal_key example_db "3" 3 "acme"
                  (example_task 1 "Test" "IN_PROGRESS")
                  None None (Some "DONE") None None
                  eq_refl eq_refl eq_refl)).
Defined.

Lemma UpdateProject_overwrites_supplied_only_witness :
  ∃ db' pr',
    UpdateProject_mutate decimal_key example_db "1" "acme"
      None None (Some "ON_HOLD") None
    = (db', Return (1, pr')) ∧
    project_status pr' = "ON_HOLD" ∧
    project_name pr' = "Launch" ∧
    organization_id pr' = 1 ∧
    (1, pr') ∈ resolve_projects db' "acme".
Proof.
  destruct (UpdateProject_overwrites_supplied_only decimal_key example_db
              "1" 1 "acme" launch None None (Some "ON_HOLD") None
              eq_refl eq_refl eq_refl)
    as (db' & pr' & Hr & _ & Hname & _ & Hstatus & _ & Horg & _ & Hin & _).
  by exists db', pr'.
Defined.

Lemma CreateTaskComment_round_trip_witness :
  ∃ db' k,
    CreateTaskComment_mutate decimal_key example_db "1" "acme"
      "Shipped" "b@acme.test"
    = (db', Return (k, {| task_id := 1; content := "Shipped";
                          author_email := "b@acme.test" |})) ∧
    appears (resolve_taskComments decimal_key db' "1" "acme")
      (k, {| task_id := 1; content := "Shipped";
             author_email := "b@acme.test" |}).
Proof.
  destruct (CreateTaskComment_round_trip decimal_key example_db "1" 1
              "acme" "Shipped" "b@acme.test"
              (example_task 1 "Design" "DONE") eq_refl eq_refl eq_refl)
    as (db' & k & Hr & _ & Hlist & _).
  exists db', k. split; [done|]. apply Hlist. by right.
Defined.

Lemma UpdateTask_done_counts_witness :
  resolve_completedTasks
    (UpdateTask_mutate decimal_key example_db "3" "acme"
       None None (Some "DONE") None None).1 (1, launch)
  = resolve_completedTasks example_db (1, launch) + 1
  ∧ resolve_taskCount
      (UpdateTask_mutate decimal_key example_db "3" "acme"
         None None (Some "DONE") None None).1 (1, launch)
    = resolve_taskCount example_db (1, launch).
Proof.
  apply (UpdateTask_done_counts decimal_key example_db "3" 3 "acme"
           (example_task 1 "Test" "IN_PROGRESS") launch None None None None).
  - reflexivity.
  - reflexivity.
  - reflexivity.
  - discriminate.
Defined.

Lemma mutations_keep_referential_integrity_witness :
  referential_integrity
    (CreateTask_mutate decimal_key example_db "1" "acme" "Review"
       CreateTask_default_description CreateTask_default_status
       CreateTask_default_assigneeEmail None).1.
Proof.
  apply (mutations_keep_referential_integrity decimal_key example_db
           referential_integrity_example_db).
Defined.

Lemma projectStatistics_totals_are_listing_lengths_witness :
  ∃ st l,
    resolve_projectStatistics decimal_key example_db "acme" None
    = Return (Some st) ∧
    resolve_tasks decimal_key example_db "acme" None = Return l ∧
    totalProjects st = count (resolve_projects example_db "acme") ∧
    totalTasks st = count l.
Proof.
  apply (projectStatistics_totals_are_listing_lengths decimal_key example_db
           "acme" 1 acme).
  - apply slug_unique_example_db.
  - reflexivity.
  - reflexivity.
Defined.

Lemma taskCount_is_narrowed_listing_length_witness :
  ∃ l, resolve_tasks decimal_key example_db "acme" (Some "1") = Return l ∧
       resolve_taskCount example_db (1, launch) = count l ∧
       ∀ t, t ∈ l → t ∈ related_tasks example_db (1, launch).
Proof.
  apply (taskCount_is_narrowed_listing_length decimal_key eq_refl example_db
           "acme" "1" 1 launch); reflexivity.
Defined.

Lemma duplicate_slug_raises_witness :
  resolve_organization
    {| organizations := {[ 1 := acme; 2 := acme ]}; projects := ∅;
       tasks := ∅; comments := ∅ |} "acme"
  = Raise (MultipleObjectsReturned MOrganization).
Proof.
  apply (duplicate_slug_raises decimal_key
           {| organizations := {[ 1 := acme; 2 := acme ]}; projects := ∅;
              tasks := ∅; comments := ∅ |} "acme" 1 2 acme acme).
  - discriminate.
  - reflexivity.
  - reflexivity.
  - reflexivity.
  - reflexivity.
Defined.
